(** * deluge_cleanup: report parser and classification policy

    A shallow embedding of [deluge_cleanup.py] and the properties its
    specification states about it.

    Modelling choices.
    - A Python [str] is a [string]; a character is an 8-bit code point.
    - A Python [float] is an IEEE 754 binary64 value, a [spec_float] of the
      Standard Library; [a >= b] is [SFleb b a].  The integer [0] that
      initialises [ratio] compares like [+0.0] and is modelled by it.
    - The builtin [float()] and the operating system ([subprocess.run]) are
      not code of the program: the development is parameterised by them
      (Section variables), and [py_float] below is an executable
      instance of the former used on concrete inputs.
    - Exceptions are an explicit [result]; console invocations, the write of
      [config.yaml] (taken to succeed) and the summary table are recorded in
      an event trace.  Narration that is only printed (the bare [print]
      calls, most of them gated by [verbose]) carries no data any property
      needs and is not recorded; this is why the parser has no [verbose]
      argument here. *)

From Stdlib Require Import String Ascii List ZArith Bool Lia.
From Stdlib Require Import Floats.SpecFloat DecimalString.
Import ListNotations.

Open Scope list_scope.
Open Scope string_scope.

(** ** Results and exceptions *)

Inductive exn : Type :=
| ValueError
| IndexError.

Inductive result (A : Type) : Type :=
| Ok (a : A)
| Raise (e : exn).

Arguments Ok {A} a.
Arguments Raise {A} e.

Definition bind {A B : Type} (r : result A) (k : A -> result B) : result B :=
  match r with
  | Ok a => k a
  | Raise e => Raise e
  end.

Notation "x <- r ;; k" := (bind r (fun x => k))
  (at level 61, r at next level, right associativity).

(** ** Python string operations *)

Module Str.

Definition LF : ascii := ascii_of_nat 10.

(** ["\n"] and ["\n\n"]. *)
Definition nl : string := String LF "".
Definition nlnl : string := String LF (String LF "").

(** [s.startswith(p)]. *)
Definition startswith (p s : string) : bool := String.prefix p s.

Fixpoint drop (n : nat) (s : string) : string :=
  match n, s with
  | O, _ => s
  | S _, "" => ""
  | S n', String _ s' => drop n' s'
  end.

(** Leftmost occurrence of [sep] in [s]: the text before it and the text
    after it ([str.partition] without the middle component). *)
Fixpoint partition (sep s : string) {struct s} : option (string * string) :=
  if startswith sep s then Some ("", drop (String.length sep) s)
  else match s with
       | "" => None
       | String c s' =>
           match partition sep s' with
           | Some (b, a) => Some (String c b, a)
           | None => None
           end
       end.

(** [sub in s]. *)
Fixpoint contains (sub s : string) {struct s} : bool :=
  startswith sub s ||
  match s with
  | "" => false
  | String _ s' => contains sub s'
  end.

(** [s.split(sep)] for a non-empty [sep]: cut at the successive leftmost
    non-overlapping occurrences.  Every cut consumes at least one
    character, so [length s] rounds are enough. *)
Fixpoint split_fuel (fuel : nat) (sep s : string) : list string :=
  match fuel with
  | O => [s]
  | S fuel' =>
      match partition sep s with
      | None => [s]
      | Some (b, a) => b :: split_fuel fuel' sep a
      end
  end.

Definition split (sep s : string) : list string :=
  split_fuel (String.length s) sep s.

(** [c.isspace()] on the code points below 256. *)
Definition isspace (c : ascii) : bool :=
  let n := nat_of_ascii c in
  (((9 <=? n) && (n <=? 13)) || ((28 <=? n) && (n <=? 32))
   || (n =? 133) || (n =? 160))%nat.

Fixpoint lstrip (s : string) : string :=
  match s with
  | "" => ""
  | String c s' => if isspace c then lstrip s' else s
  end.

Fixpoint rstrip (s : string) : string :=
  match s with
  | "" => ""
  | String c s' =>
      match rstrip s' with
      | "" => if isspace c then "" else String c ""
      | r => String c r
      end
  end.

(** [s.strip()]. *)
Definition strip (s : string) : string := rstrip (lstrip s).

(** Truth value of a string: non-empty. *)
Definition truthy (s : string) : bool :=
  match s with
  | "" => false
  | _ => true
  end.

End Str.

(** ** Torrent records *)

Definition float : Type := spec_float.

(** [a >= b] on floats; false as soon as one side is a NaN. *)
Definition float_ge (a b : float) : bool := SFleb b a.

(** [a == b] on floats. *)
Definition float_eq (a b : float) : bool := SFeqb a b.

(** The class [Deluge.Torrent]. *)
Record Torrent : Type := mkTorrent {
  name : string;
  torrent_id : string;
  state : string;
  ratio : float;
  tracker : string
}.

(** ** An executable [float()]

    The grammar of the Python language reference for the argument of
    [float()]: optional sign, then [inf], [infinity] or [nan] in any case,
    or a decimal number with optional fraction and exponent, digits
    optionally grouped by single underscores; surrounding whitespace is
    ignored.  The value is the decimal rounded to the nearest binary64,
    ties to even. *)

Module PyFloat.

Definition prec : Z := 53.
Definition emax : Z := 1024.

Definition digit_of (c : ascii) : option N :=
  let n := N_of_ascii c in
  if ((48 <=? n) && (n <=? 57))%N then Some (n - 48)%N else None.

Definition lower (c : ascii) : ascii :=
  let n := N_of_ascii c in
  if ((65 <=? n) && (n <=? 90))%N then ascii_of_N (n + 32) else c.

Fixpoint lowercase (s : string) : string :=
  match s with
  | "" => ""
  | String c s' => String (lower c) (lowercase s')
  end.

(** Digits read so far: their value and their number. *)
Definition acc : Type := (N * nat)%type.

Definition push (a : acc) (d : N) : acc := (10 * fst a + d, S (snd a))%N.

(** The rest of a digitpart: [(["_"] digit)*]. *)
Fixpoint more_digits (a : acc) (s : string) {struct s} : acc * string :=
  match s with
  | "" => (a, "")
  | String c s' =>
      match digit_of c with
      | Some d => more_digits (push a d) s'
      | None =>
          if Ascii.eqb c "_" then
            match s' with
            | "" => (a, s)
            | String c' s'' =>
                match digit_of c' with
                | Some d => more_digits (push a d) s''
                | None => (a, s)
                end
            end
          else (a, s)
      end
  end.

(** [digit (["_"] digit)*]. *)
Definition digitpart (a : acc) (s : string) : option (acc * string) :=
  match s with
  | "" => None
  | String c s' =>
      match digit_of c with
      | Some d => Some (more_digits (push a d) s')
      | None => None
      end
  end.

(** [[digitpart] "." digitpart | digitpart ["."]]: the digits without the
    point, the number of digits after the point, and the unread text. *)
Definition number (s : string) : option (N * nat * string) :=
  match s with
  | String "." s' =>
      match digitpart (0%N, O) s' with
      | Some ((m, k), r) => Some (m, k, r)
      | None => None
      end
  | _ =>
      match digitpart (0%N, O) s with
      | Some ((m, _), String "." r) =>
          match digitpart (m, O) r with
          | Some ((m', k), r') => Some (m', k, r')
          | None => Some (m, O, r)
          end
      | Some ((m, _), r) => Some (m, O, r)
      | None => None
      end
  end.

Definition sign (s : string) : bool * string :=
  match s with
  | String "-" s' => (true, s')
  | String "+" s' => (false, s')
  | _ => (false, s)
  end.

(** [("e" | "E") [sign] digitpart] up to the end of the text, or nothing. *)
Definition exponent (s : string) : option Z :=
  match s with
  | "" => Some 0%Z
  | String c s' =>
      if Ascii.eqb (lower c) "e" then
        let '(neg, r) := sign s' in
        match digitpart (0%N, O) r with
        | Some ((x, _), "") => Some (if neg then - Z.of_N x else Z.of_N x)%Z
        | _ => None
        end
      else None
  end.

(** [m * 10 ^ e] rounded to binary64.  Beyond the two guards the result no
    longer depends on the digits. *)
Definition of_decimal (neg : bool) (m : N) (digits : nat) (e : Z) : float :=
  match m with
  | N0 => S754_zero neg
  | Npos p =>
      if (309 <=? e)%Z then S754_infinity neg
      else if (Z.of_nat digits + e <=? -324)%Z then S754_zero neg
      else if (0 <=? e)%Z then
        binary_round prec emax neg (p * Z.to_pos (10 ^ e)) 0
      else
        SFdiv prec emax (S754_finite neg p 0)
              (S754_finite false (Z.to_pos (10 ^ (- e))) 0)
  end.

Definition py_float (s : string) : option float :=
  let '(neg, r) := sign (Str.strip s) in
  let w := lowercase r in
  if String.eqb w "inf" || String.eqb w "infinity" then Some (S754_infinity neg)
  else if String.eqb w "nan" then Some S754_nan
  else
    match number r with
    | Some (m, k, r') =>
        match exponent r' with
        | Some x => Some (of_decimal neg m (S (N.to_nat (N.log2 m))) (x - Z.of_nat k))
        | None => None
        end
    | None => None
    end.

End PyFloat.

(** ** The report parser *)

Section Parser.

(** The builtin [float()]: [None] stands for its [ValueError]. *)
Variable float_of_str : string -> option float.

Definition to_float (s : string) : result float :=
  match float_of_str s with
  | Some r => Ok r
  | None => Raise ValueError
  end.

(** [l[1]]. *)
Definition index1 (l : list string) : result string :=
  match nth_error l 1 with
  | Some x => Ok x
  | None => Raise IndexError
  end.

(** The local variables [name, torrent_id, state, ratio, tracker] of the
    loop over sections. *)
Record Locals : Type := mkLocals {
  l_name : string;
  l_torrent_id : string;
  l_state : string;
  l_ratio : float;
  l_tracker : string
}.

Definition locals0 : Locals := mkLocals "" "" "" (S754_zero false) "".

(** Body of [for line in lines]. *)
Definition parse_line (v : Locals) (line : string) : result Locals :=
  if Str.startswith "Name:" line then
    x <- index1 (Str.split "Name:" line);;
    Ok (mkLocals (Str.strip x) (l_torrent_id v) (l_state v) (l_ratio v) (l_tracker v))
  else if Str.startswith "ID:" line then
    x <- index1 (Str.split "ID:" line);;
    Ok (mkLocals (l_name v) (Str.strip x) (l_state v) (l_ratio v) (l_tracker v))
  else if Str.startswith "State:" line then
    x <- index1 (Str.split "State:" line);;
    Ok (mkLocals (l_name v) (l_torrent_id v) (Str.strip x) (l_ratio v) (l_tracker v))
  else if Str.contains "Share Ratio:" line then
    x <- index1 (Str.split "Share Ratio:" line);;
    r <- to_float (Str.strip x);;
    Ok (mkLocals (l_name v) (l_torrent_id v) (l_state v) r (l_tracker v))
  else if Str.startswith "Tracker:" line then
    x <- index1 (Str.split "Tracker:" line);;
    Ok (mkLocals (l_name v) (l_torrent_id v) (l_state v) (l_ratio v) (Str.strip x))
  else Ok v.

Fixpoint parse_lines (v : Locals) (lines : list string) : result Locals :=
  match lines with
  | [] => Ok v
  | line :: rest => v' <- parse_line v line;; parse_lines v' rest
  end.

(** One round of [for section in sections]: the record the round appends,
    if any. *)
Definition parse_section (section : string) : result (option Torrent) :=
  v <- parse_lines locals0 (Str.split Str.nl section);;
  if Str.truthy (l_name v) && Str.truthy (l_torrent_id v)
  then Ok (Some (mkTorrent (l_name v) (l_torrent_id v) (l_state v)
                           (l_ratio v) (l_tracker v)))
  else Ok None.

Fixpoint parse_sections (sections : list string) (torrents : list Torrent)
  : result (list Torrent) :=
  match sections with
  | [] => Ok torrents
  | section :: rest =>
      o <- parse_section section;;
      parse_sections rest
        (match o with
         | Some torrent => (torrents ++ [torrent])%list
         | None => torrents
         end)
  end.

Definition parse_torrent_info (torrent_info : string) : result (list Torrent) :=
  parse_sections (Str.split Str.nlnl torrent_info) [].

End Parser.

(** ** Configuration values, command line, events *)

(** A value read from [config.yaml] or given on the command line. *)
Inductive pyval : Type :=
| VNone
| VStr (s : string)
| VInt (z : Z).

(** Truth value, as [not v] tests it. *)
Definition truthy (v : pyval) : bool :=
  match v with
  | VNone => false
  | VStr s => Str.truthy s
  | VInt z => negb (z =? 0)%Z
  end.

(** [str(v)], as an f-string renders it. *)
Definition str (v : pyval) : string :=
  match v with
  | VNone => "None"
  | VStr s => s
  | VInt z => NilZero.string_of_int (Z.to_int z)
  end.

Definition pyval_eqb (a b : pyval) : bool :=
  match a, b with
  | VNone, VNone => true
  | VStr x, VStr y => String.eqb x y
  | VInt x, VInt y => (x =? y)%Z
  | _, _ => false
  end.

(** The namespace returned by [parser.parse_args()]. *)
Record Args : Type := mkArgs {
  container : pyval;
  host : pyval;
  port : pyval;
  user : pyval;
  password : pyval;
  ratio_limit : float;
  allowed_trackers : list string;
  test : bool;
  verbose : nat
}.

(** [getattr(args, arg)] for the names of [required_args]. *)
Definition getattr (args : Args) (arg : string) : pyval :=
  if String.eqb arg "host" then host args
  else if String.eqb arg "port" then port args
  else if String.eqb arg "user" then user args
  else if String.eqb arg "password" then password args
  else VNone.

(** A dictionary with exactly the seven keys of [vars(args)] once [verbose]
    and [test] are deleted. *)
Record Snapshot : Type := mkSnapshot {
  s_container : pyval;
  s_host : pyval;
  s_port : pyval;
  s_user : pyval;
  s_password : pyval;
  s_ratio_limit : float;
  s_allowed_trackers : list string
}.

Definition vars (args : Args) : Snapshot :=
  mkSnapshot (container args) (host args) (port args) (user args)
             (password args) (ratio_limit args) (allowed_trackers args).

Fixpoint strings_eqb (a b : list string) : bool :=
  match a, b with
  | [], [] => true
  | x :: a', y :: b' => String.eqb x y && strings_eqb a' b'
  | _, _ => false
  end.

Definition snapshot_eqb (a b : Snapshot) : bool :=
  pyval_eqb (s_container a) (s_container b)
  && pyval_eqb (s_host a) (s_host b)
  && pyval_eqb (s_port a) (s_port b)
  && pyval_eqb (s_user a) (s_user b)
  && pyval_eqb (s_password a) (s_password b)
  && float_eq (s_ratio_limit a) (s_ratio_limit b)
  && strings_eqb (s_allowed_trackers a) (s_allowed_trackers b).

(** How [subprocess.run] is called: the argument vector
    [docker exec -it deluge bash -c cmd], or [cmd] through the shell with
    [check=True]. *)
Inductive call : Type :=
| Docker (cmd : string)
| Shell (cmd : string).

Record CompletedProcess : Type := mkCompleted {
  returncode : Z;
  stdout : string
}.

(** What a run does to the outside, in order.  [print_stat] is recorded,
    bare [print] is not. *)
Inductive event : Type :=
| Exec (c : call)
| SaveConfig (s : Snapshot)
| PrintStat (label : string) (value : nat).

(** Computations that extend the trace and may raise. *)
Definition M (A : Type) : Type := list event -> result A * list event.

Definition ret {A : Type} (a : A) : M A := fun tr => (Ok a, tr).

Definition raise {A : Type} (e : exn) : M A := fun tr => (Raise e, tr).

Definition emit (e : event) : M unit := fun tr => (Ok tt, (tr ++ [e])%list).

Definition lift {A : Type} (r : result A) : M A := fun tr => (r, tr).

Definition mbind {A B : Type} (m : M A) (k : A -> M B) : M B :=
  fun tr =>
    match m tr with
    | (Ok a, tr') => k a tr'
    | (Raise e, tr') => (Raise e, tr')
    end.

Notation "x <~ m ;; k" := (mbind m (fun x => k))
  (at level 61, m at next level, right associativity).

(** ** The console client *)

Module Deluge.

Record t : Type := mk {
  host : pyval;
  port : pyval;
  user : pyval;
  password : pyval;
  container : pyval;
  verbose : nat
}.

Definition dquote : string := String (ascii_of_nat 34) "".

Definition full_command (self : t) (command : string) : string :=
  "deluge-console " ++ dquote ++ "connect " ++ str (host self) ++ ":"
    ++ str (port self) ++ " " ++ str (user self) ++ " "
    ++ str (password self) ++ "; " ++ command ++ dquote.

Section Client.

(** The operating system: what a call returns, given what the run did
    before it.  A call is taken to return: the executable is found and its
    output decodes; a failing command shows in [returncode]. *)
Variable subprocess_run : list event -> call -> CompletedProcess.

Definition run (c : call) : M CompletedProcess :=
  fun tr => (Ok (subprocess_run tr c), (tr ++ [Exec c])%list).

(** [check=True] turns a non-zero exit status into
    [CalledProcessError], which the handler turns into [""]. *)
Definition run_command (self : t) (command : string) : M string :=
  if truthy (container self) then
    result <~ run (Docker (full_command self command));;
    ret (Str.strip (stdout result))
  else
    result <~ run (Shell (full_command self command));;
    if (returncode result =? 0)%Z
    then ret (Str.strip (stdout result))
    else ret "".

Definition get_all_torrents (self : t) : M string :=
  run_command self "info --detailed".

(** [Torrent.stop] and [Torrent.remove]. *)
Definition stop (torrent : Torrent) (deluge : t) : M unit :=
  _ <~ run_command deluge ("pause " ++ torrent_id torrent);; ret tt.

Definition remove (torrent : Torrent) (deluge : t) : M unit :=
  _ <~ run_command deluge ("rm " ++ torrent_id torrent);; ret tt.

Definition stop_and_remove (self : t) (torrent : Torrent) : M unit :=
  _ <~ stop torrent self;;
  remove torrent self.

End Client.

End Deluge.

(** ** The orchestrator *)

Record Counters : Type := mkCounters {
  deleted : nat;
  skipped_tracker : nat;
  skipped_ratio : nat;
  skipped_tracker_ratio : nat
}.

Definition counters0 : Counters := mkCounters 0 0 0 0.

Section Main.

Variable float_of_str : string -> option float.
Variable subprocess_run : list event -> call -> CompletedProcess.

Definition required_args : list string := ["host"; "port"; "user"; "password"].

(** [x in l] on a list of strings. *)
Definition mem (x : string) (l : list string) : bool :=
  existsb (String.eqb x) l.

(** Body of [for torrent in torrents]. *)
Definition loop_body (deluge : Deluge.t) (args : Args) (test : bool)
           (c : Counters) (torrent : Torrent) : M Counters :=
  if mem (tracker torrent) (allowed_trackers args) then
    if String.eqb (state torrent) "Seeding"
       && float_ge (ratio torrent) (ratio_limit args)
    then ret (mkCounters (deleted c) (skipped_tracker c) (skipped_ratio c)
                         (skipped_tracker_ratio c + 1))
    else ret (mkCounters (deleted c) (skipped_tracker c + 1) (skipped_ratio c)
                         (skipped_tracker_ratio c))
  else
    if String.eqb (state torrent) "Seeding"
       && float_ge (ratio torrent) (ratio_limit args)
    then
      let c' := mkCounters (deleted c + 1) (skipped_tracker c)
                           (skipped_ratio c) (skipped_tracker_ratio c) in
      if negb test
      then _ <~ Deluge.stop_and_remove subprocess_run deluge torrent;; ret c'
      else ret c'
    else ret (mkCounters (deleted c) (skipped_tracker c) (skipped_ratio c + 1)
                         (skipped_tracker_ratio c)).

Fixpoint loop (deluge : Deluge.t) (args : Args) (test : bool)
         (c : Counters) (torrents : list Torrent) : M Counters :=
  match torrents with
  | [] => ret c
  | torrent :: rest =>
      c' <~ loop_body deluge args test c torrent;;
      loop deluge args test c' rest
  end.

(** The table printed when [verbose >= 1]. *)
Definition summary (test : bool) (total : nat) (c : Counters) : M unit :=
  _ <~ emit (PrintStat "Total torrents" total);;
  _ <~ (if negb test
        then emit (PrintStat "Deleted" (deleted c))
        else emit (PrintStat "Would be deleted" (deleted c)));;
  _ <~ emit (PrintStat "Total skipped"
               (skipped_tracker c + skipped_ratio c + skipped_tracker_ratio c));;
  _ <~ emit (PrintStat "Due to ratio" (skipped_ratio c));;
  _ <~ emit (PrintStat "Allowed tracker (under limit)" (skipped_tracker c));;
  emit (PrintStat "Allowed tracker (over limit)" (skipped_tracker_ratio c)).

(** [main], from the namespace [args] on.  [config] is the loaded
    document when it has exactly the seven keys of [vars(args)], and
    [None] for any other document, which differs from [vars(args)]. *)
Definition main (config : option Snapshot) (args : Args) : M unit :=
  let missing_args :=
    filter (fun arg => negb (truthy (getattr args arg))) required_args in
  match missing_args with
  | _ :: _ => raise ValueError
  | [] =>
      let verbose0 := verbose args in
      let test := test args in
      _ <~ (match config with
            | Some c => if snapshot_eqb c (vars args) then ret tt
                        else emit (SaveConfig (vars args))
            | None => emit (SaveConfig (vars args))
            end);;
      let verbose := if test then 2 else verbose0 in
      let deluge := Deluge.mk (host args) (port args) (user args)
                              (password args) (container args) verbose in
      torrent_info <~ Deluge.get_all_torrents subprocess_run deluge;;
      torrents <~ lift (parse_torrent_info float_of_str torrent_info);;
      c <~ loop deluge args test counters0 torrents;;
      if (1 <=? verbose)%nat then summary test (List.length torrents) c
      else ret tt
  end.

End Main.

(** ** Notions of the specification *)

Inductive Disposition : Type :=
| Delete
| SkipRatio
| SkipAllowedTrackerUnderLimit
| SkipAllowedTrackerOverLimit.

(** The decision rule, in the words of the specification: membership of
    the tracker in the allow-list first, then the exact state ["Seeding"]
    together with [ratio >= ratio_limit]. *)
Definition classify (record : Torrent) (limit : float) (allowed : list string)
  : Disposition :=
  if in_dec string_dec (tracker record) allowed then
    if string_dec (state record) "Seeding" then
      if float_ge (ratio record) limit then SkipAllowedTrackerOverLimit
      else SkipAllowedTrackerUnderLimit
    else SkipAllowedTrackerUnderLimit
  else
    if string_dec (state record) "Seeding" then
      if float_ge (ratio record) limit then Delete else SkipRatio
    else SkipRatio.

(** The counter that stands for a disposition, incremented. *)
Definition tally (c : Counters) (d : Disposition) : Counters :=
  match d with
  | Delete =>
      mkCounters (deleted c + 1) (skipped_tracker c) (skipped_ratio c)
                 (skipped_tracker_ratio c)
  | SkipRatio =>
      mkCounters (deleted c) (skipped_tracker c) (skipped_ratio c + 1)
                 (skipped_tracker_ratio c)
  | SkipAllowedTrackerUnderLimit =>
      mkCounters (deleted c) (skipped_tracker c + 1) (skipped_ratio c)
                 (skipped_tracker_ratio c)
  | SkipAllowedTrackerOverLimit =>
      mkCounters (deleted c) (skipped_tracker c) (skipped_ratio c)
                 (skipped_tracker_ratio c + 1)
  end.

Definition disposition_eqb (a b : Disposition) : bool :=
  match a, b with
  | Delete, Delete
  | SkipRatio, SkipRatio
  | SkipAllowedTrackerUnderLimit, SkipAllowedTrackerUnderLimit
  | SkipAllowedTrackerOverLimit, SkipAllowedTrackerOverLimit => true
  | _, _ => false
  end.

(** How many records of a sequence get disposition [d]. *)
Definition count_disposition (d : Disposition) (limit : float)
           (allowed : list string) (torrents : list Torrent) : nat :=
  List.length
    (filter (fun t => disposition_eqb (classify t limit allowed) d) torrents).

(** The console invocation that carries [command]. *)
Definition invocation (self : Deluge.t) (command : string) : call :=
  if truthy (Deluge.container self)
  then Docker (Deluge.full_command self command)
  else Shell (Deluge.full_command self command).

(** A console command that changes the remote state. *)
Definition mutating (self : Deluge.t) (c : call) : Prop :=
  exists i, c = invocation self ("pause " ++ i) \/ c = invocation self ("rm " ++ i).

(** The client [main] builds from [args]. *)
Definition client_of (args : Args) : Deluge.t :=
  Deluge.mk (host args) (port args) (user args) (password args)
            (container args) (if test args then 2 else verbose args).

(** The test the loop makes twice. *)
Definition qualifies (t : Torrent) (limit : float) : bool :=
  (state t =? "Seeding") && float_ge (ratio t) limit.

(** The counters after a sequence of records. *)
Fixpoint tally_all (c : Counters) (limit : float) (allowed : list string)
         (torrents : list Torrent) : Counters :=
  match torrents with
  | [] => c
  | t :: rest => tally_all (tally c (classify t limit allowed)) limit allowed rest
  end.

(** The console commands of the whole loop. *)
Fixpoint loop_commands (deluge : Deluge.t) (limit : float)
         (allowed : list string) (torrents : list Torrent) : list event :=
  match torrents with
  | [] => []
  | t :: rest =>
      ((if disposition_eqb (classify t limit allowed) Delete
        then [Exec (invocation deluge ("pause " ++ torrent_id t));
              Exec (invocation deluge ("rm " ++ torrent_id t))]
        else []) ++ loop_commands deluge limit allowed rest)%list
  end.

Definition total (c : Counters) : nat :=
  deleted c + skipped_ratio c + skipped_tracker c + skipped_tracker_ratio c.

(** A required argument is missing: [missing_args] is not empty. *)
Definition missing (args : Args) : bool :=
  existsb (fun arg => negb (truthy (getattr args arg))) required_args.

(** What [main] writes before it contacts the console. *)
Definition save_events (config : option Snapshot) (args : Args) : list event :=
  match config with
  | Some c => if snapshot_eqb c (vars args) then [] else [SaveConfig (vars args)]
  | None => [SaveConfig (vars args)]
  end.

(** The text [main] hands to the parser, for a console [os] and the trace
    [tr] before the fetch. *)
Definition fetched (os : list event -> call -> CompletedProcess)
           (args : Args) (tr : list event) : string :=
  match fst (Deluge.get_all_torrents os (client_of args) tr) with
  | Ok out => out
  | Raise _ => ""
  end.

(** The rows of the summary table. *)
Definition summary_events (test : bool) (n : nat) (c : Counters) : list event :=
  [PrintStat "Total torrents" n;
   PrintStat (if test then "Would be deleted" else "Deleted") (deleted c);
   PrintStat "Total skipped"
             (skipped_tracker c + skipped_ratio c + skipped_tracker_ratio c);
   PrintStat "Due to ratio" (skipped_ratio c);
   PrintStat "Allowed tracker (under limit)" (skipped_tracker c);
   PrintStat "Allowed tracker (over limit)" (skipped_tracker_ratio c)].

(** The console invocations of a trace. *)
Fixpoint execs (tr : list event) : list call :=
  match tr with
  | [] => []
  | Exec c :: tr' => c :: execs tr'
  | _ :: tr' => execs tr'
  end.

(** A block is retained when its name and its id are non-empty. *)
Definition retained (v : Locals) : bool :=
  negb (l_name v =? "") && negb (l_torrent_id v =? "").

Definition record_of (v : Locals) : Torrent :=
  mkTorrent (l_name v) (l_torrent_id v) (l_state v) (l_ratio v) (l_tracker v).

(** The values present in a list of optional values, in order. *)
Fixpoint somes {A : Type} (l : list (option A)) : list A :=
  match l with
  | [] => []
  | Some a :: l' => a :: somes l'
  | None :: l' => somes l'
  end.

(** ** Concrete inputs *)

Module Sample.

(** The floats [0.5], [0.6], [1.0], [1.5] and [2.0]. *)
Definition half : float := S754_finite false 4503599627370496 (-53).
Definition three_fifths : float := S754_finite false 5404319552844595 (-53).
Definition one : float := S754_finite false 4503599627370496 (-52).
Definition one_and_half : float := S754_finite false 6755399441055744 (-52).
Definition two : float := S754_finite false 4503599627370496 (-51).

(** A record that qualifies for deletion, and the block that describes it. *)
Definition torrentA : Torrent := mkTorrent "X" "1" "Seeding" three_fifths "t1".

Definition blockA : string :=
  String.concat Str.nl
    ["Name: X"; "ID: 1"; "State: Seeding"; "Share Ratio: 0.6"; "Tracker: t1"].

(** A paused record whose ratio equals the limit [0.5]. *)
Definition torrentB : Torrent := mkTorrent "Y" "2" "Paused" half "t2".

Definition blockB : string :=
  String.concat Str.nl
    ["Name: Y"; "ID: 2"; "State: Paused"; "Size: 1.0 GiB Share Ratio: 0.5";
     "Tracker: t2"].

(** A block without [ID:]. *)
Definition block_no_id : string :=
  String.concat Str.nl ["Name: Z"; "State: Seeding"; "Share Ratio: 2.0"].

Definition dump3 : string :=
  String.concat Str.nlnl [blockA; block_no_id; blockB].

(** A seeding record whose ratio equals the limit [0.5]. *)
Definition torrent_at_limit : Torrent := mkTorrent "W" "3" "Seeding" half "t1".

(** A block in which the label [Share Ratio:] occurs twice. *)
Definition block_twice : string :=
  String.concat Str.nl ["Name: X"; "ID: 1"; "Share Ratio: 1.0 Share Ratio: x"].

(** A console that answers the fetch with [dump] and whose pause command
    exits with [pause_status]. *)
Definition console (dump : string) (pause_status : Z)
           (tr : list event) (c : call) : CompletedProcess :=
  let cmd := match c with Docker cmd => cmd | Shell cmd => cmd end in
  if Str.contains "; pause " cmd then mkCompleted pause_status ""
  else if Str.contains "; info --detailed" cmd then mkCompleted 0 dump
  else mkCompleted 0 "".

Definition args_run : Args :=
  mkArgs VNone (VStr "localhost") (VInt 58846) (VStr "admin") (VStr "secret")
         half [] false 0.

Definition args_test : Args :=
  mkArgs VNone (VStr "localhost") (VInt 58846) (VStr "admin") (VStr "secret")
         half [] true 0.

(** No port. *)
Definition args_no_port : Args :=
  mkArgs VNone (VStr "localhost") VNone (VStr "admin") (VStr "secret")
         half [] false 0.

End Sample.

(** ** The text of a table row *)

(** [n] spaces. *)
Fixpoint spaces (n : nat) : string :=
  match n with
  | O => ""
  | S n' => String " " (spaces n')
  end.

(** The format specifications [<w] and [>w]: pad to the width [w], on the
    right or on the left; a longer text is left as it is. *)
Definition ljust (w : nat) (s : string) : string :=
  s ++ spaces (w - String.length s).

Definition rjust (w : nat) (s : string) : string :=
  spaces (w - String.length s) ++ s.

(** [str(value)] for a counter. *)
Definition str_of_nat (value : nat) : string :=
  NilZero.string_of_uint (Nat.to_uint value).

(** The line [print_stat(name, value)] prints. *)
Definition print_stat (name : string) (value : nat) : string :=
  ljust 30 name ++ rjust 5 (str_of_nat value).

(** ** Further notions *)

(** The test that sends a record to [stop_and_remove]. *)
Definition deletable (args : Args) (t : Torrent) : bool :=
  negb (mem (tracker t) (allowed_trackers args))
  && (state t =? "Seeding") && float_ge (ratio t) (ratio_limit args).

(** The two console invocations of [stop_and_remove]. *)
Definition pause_rm (self : Deluge.t) (t : Torrent) : list call :=
  [invocation self ("pause " ++ torrent_id t);
   invocation self ("rm " ++ torrent_id t)].

(** [args] with another [--test] flag. *)
Definition with_test (args : Args) (b : bool) : Args :=
  mkArgs (container args) (host args) (port args) (user args) (password args)
         (ratio_limit args) (allowed_trackers args) b (verbose args).

(** A field as the parser stores it: nothing to trim. *)
Definition trimmed (s : string) : Prop := Str.strip s = s.

(** The table is printed: test mode forces [verbose = 2]. *)
Definition prints_table (args : Args) : bool :=
  (1 <=? (if test args then 2 else verbose args))%nat.

(** The rows of the table in a trace. *)
Fixpoint stats (tr : list event) : list (string * nat) :=
  match tr with
  | [] => []
  | PrintStat label value :: tr' => (label, value) :: stats tr'
  | _ :: tr' => stats tr'
  end.

(** ** More concrete inputs *)

Module Cases.

(** A block whose ratio is not a number. *)
Definition block_bad : string :=
  String.concat Str.nl ["Name: Z"; "ID: 9"; "Share Ratio: abc"].

(** A qualifying record followed by the malformed block. *)
Definition dump_bad : string := String.concat Str.nlnl [Sample.blockA; block_bad].

(** A block without a ratio line, and its record. *)
Definition block_plain : string :=
  String.concat Str.nl ["Name: P"; "ID: 7"; "State: Seeding"; "Tracker: t3"].

Definition torrent_plain : Torrent :=
  mkTorrent "P" "7" "Seeding" (S754_zero false) "t3".


(** A real run that prints the table. *)
Definition args_loud : Args :=
  mkArgs VNone (VStr "localhost") (VInt 58846) (VStr "admin") (VStr "secret")
         Sample.half [] false 1.

(** [--ratio_limit nan]. *)
Definition args_nan : Args :=
  mkArgs VNone (VStr "localhost") (VInt 58846) (VStr "admin") (VStr "secret")
         S754_nan [] false 1.

End Cases.

(** * Properties *)

(** ** Strings: occurrences and cuts *)

Module StrFacts.
Import Str.

Lemma length_append (a b : string) :
  String.length (a ++ b) = String.length a + String.length b.
Proof.
  induction a as [|c a IH]; simpl; [reflexivity | now rewrite IH].
Qed.

Lemma startswith_app (p s : string) : startswith p (p ++ s) = true.
Proof.
  unfold startswith.
  induction p as [|c p IH]; simpl.
  - now destruct s.
  - destruct (ascii_dec c c) as [_|n]; [exact IH | now elim n].
Qed.

Lemma drop_app (p s : string) : drop (String.length p) (p ++ s) = s.
Proof.
  induction p as [|c p IH]; simpl; [now destruct s | exact IH].
Qed.

(** A prefix can be cut off and glued back. *)
Lemma startswith_inv (p s : string) :
  startswith p s = true -> s = p ++ drop (String.length p) s.
Proof.
  unfold startswith.
  revert s; induction p as [|c p IH]; intros s H; simpl.
  - now destruct s.
  - destruct s as [|d s]; simpl in H; [discriminate|].
    destruct (ascii_dec c d) as [->|_]; [|discriminate].
    simpl. f_equal. now apply IH.
Qed.

Lemma startswith_empty (p : string) : p <> "" -> startswith p "" = false.
Proof.
  destruct p; [now intros [] | reflexivity].
Qed.

Lemma partition_eq (sep s : string) :
  partition sep s =
  if startswith sep s then Some ("", drop (String.length sep) s)
  else match s with
       | "" => None
       | String c s' =>
           match partition sep s' with
           | Some (b, a) => Some (String c b, a)
           | None => None
           end
       end.
Proof.
  destruct s; reflexivity.
Qed.

Lemma contains_eq (sub s : string) :
  contains sub s =
  startswith sub s ||
  match s with
  | "" => false
  | String _ s' => contains sub s'
  end.
Proof.
  destruct s; reflexivity.
Qed.

(** [partition] cuts [s] around an occurrence of [sep]. *)
Lemma partition_sound (sep s b a : string) :
  partition sep s = Some (b, a) -> s = b ++ sep ++ a.
Proof.
  revert b a; induction s as [|c s IH]; intros b a; rewrite partition_eq.
  - destruct (startswith sep "") eqn:E; [|discriminate].
    intros [= <- <-]. simpl. now apply startswith_inv.
  - destruct (startswith sep (String c s)) eqn:E.
    + intros [= <- <-]. simpl. now apply startswith_inv.
    + destruct (partition sep s) as [[b' a']|]; [|discriminate].
      intros [= <- <-]. simpl. f_equal. now apply IH.
Qed.

Lemma partition_shorter (sep s b a : string) :
  sep <> "" -> partition sep s = Some (b, a) ->
  String.length a < String.length s.
Proof.
  intros Hsep H. apply partition_sound in H. subst s.
  rewrite !length_append.
  destruct sep; [now elim Hsep | simpl; lia].
Qed.

(** [sub in s] holds exactly when [partition] finds a cut. *)
Lemma contains_partition (sep s : string) :
  contains sep s = match partition sep s with Some _ => true | None => false end.
Proof.
  induction s as [|c s IH]; rewrite contains_eq, partition_eq.
  - now destruct (startswith sep "").
  - destruct (startswith sep (String c s)); [reflexivity|].
    simpl. rewrite IH. now destruct (partition sep s) as [[? ?]|].
Qed.

Lemma startswith_partition (sep s : string) :
  startswith sep s = true ->
  partition sep s = Some ("", drop (String.length sep) s).
Proof.
  intros H. now rewrite partition_eq, H.
Qed.

Lemma startswith_contains (sep s : string) :
  startswith sep s = true -> contains sep s = true.
Proof.
  intros H. now rewrite contains_eq, H.
Qed.

(** The first piece of a cut text. *)
Lemma split_fuel_hd (fuel : nat) (sep s : string) :
  sep <> "" -> String.length s <= fuel ->
  hd_error (split_fuel fuel sep s) =
  Some (match partition sep s with Some (b, _) => b | None => s end).
Proof.
  intros Hsep Hlen. destruct fuel as [|fuel]; simpl.
  - destruct s; [|simpl in Hlen; lia].
    rewrite partition_eq, startswith_empty by assumption. reflexivity.
  - now destruct (partition sep s) as [[b a]|].
Qed.

(** [s.split(sep)[1]]: the text between the first and the second
    occurrence of [sep], or up to the end when there is no second one. *)
Lemma split_index1 (sep s b a : string) :
  sep <> "" -> partition sep s = Some (b, a) ->
  nth_error (split sep s) 1 =
  Some (match partition sep a with Some (b', _) => b' | None => a end).
Proof.
  intros Hsep H. pose proof (partition_shorter _ _ _ _ Hsep H) as Hlt.
  unfold split. destruct (String.length s) as [|fuel] eqn:E; [lia|].
  simpl. rewrite H. simpl.
  rewrite <- (split_fuel_hd fuel sep a) by (assumption || lia).
  now destruct (split_fuel fuel sep a).
Qed.

Lemma split_index1_once (sep s b a : string) :
  sep <> "" -> partition sep s = Some (b, a) -> contains sep a = false ->
  nth_error (split sep s) 1 = Some a.
Proof.
  intros Hsep H Ha. rewrite (split_index1 sep s b a Hsep H).
  rewrite contains_partition in Ha.
  now destruct (partition sep a) as [[? ?]|].
Qed.

(** No [IndexError]: a text that contains [sep] splits in two pieces at
    least. *)
Lemma split_index1_some (sep s : string) :
  sep <> "" -> contains sep s = true ->
  exists x, nth_error (split sep s) 1 = Some x.
Proof.
  intros Hsep H. rewrite contains_partition in H.
  destruct (partition sep s) as [[b a]|] eqn:E; [|discriminate].
  eexists. now apply (split_index1 sep s b a).
Qed.

End StrFacts.

(** ** Floats *)

Lemma SFcompare_Eq_sym (a b : float) :
  SFcompare a b = Some Eq -> SFcompare b a = Some Eq.
Proof.
  destruct a as [sa|sa| |sa ma ea], b as [sb|sb| |sb mb eb]; simpl;
    try discriminate; try reflexivity;
    try (destruct sa; discriminate); try (destruct sb; discriminate).
  - destruct sa, sb; (discriminate || reflexivity).
  - change (Pos.compare_cont Eq ma mb) with (Pos.compare ma mb).
    change (Pos.compare_cont Eq mb ma) with (Pos.compare mb ma).
    assert (Hm : forall c, Some c = Some Eq -> c = Eq) by (now intros c [= ->]).
    destruct sa, sb; try discriminate;
      destruct (Z.compare ea eb) eqn:Ee; try discriminate;
      apply Z.compare_eq in Ee; subst eb; rewrite Z.compare_refl;
      intros H; apply Hm in H.
    + destruct (Pos.compare ma mb) eqn:Em; try discriminate.
      apply Pos.compare_eq in Em. subst mb. now rewrite Pos.compare_refl.
    + apply Pos.compare_eq in H. subst mb. now rewrite Pos.compare_refl.
Qed.

(** [a == b] implies [a >= b]: the comparison with the limit is inclusive. *)
Lemma float_eq_ge (a b : float) : float_eq a b = true -> float_ge a b = true.
Proof.
  unfold float_eq, float_ge, SFeqb, SFleb. intros H.
  destruct (SFcompare a b) as [[| |]|] eqn:E; try discriminate.
  now rewrite (SFcompare_Eq_sym a b E).
Qed.

(** ** The console client *)

Section ClientFacts.

Variable subprocess_run : list event -> call -> CompletedProcess.

(** A console command never raises: it runs one process, whatever that
    process returns. *)
Lemma run_command_trace (self : Deluge.t) (command : string) (tr : list event) :
  exists out,
    Deluge.run_command subprocess_run self command tr =
    (Ok out, (tr ++ [Exec (invocation self command)])%list).
Proof.
  unfold Deluge.run_command, invocation, Deluge.run, mbind, ret.
  destruct (truthy (Deluge.container self)).
  - eexists; reflexivity.
  - destruct (returncode _ =? 0)%Z; eexists; reflexivity.
Qed.

Lemma stop_and_remove_trace (self : Deluge.t) (torrent : Torrent) (tr : list event) :
  Deluge.stop_and_remove subprocess_run self torrent tr =
  (Ok tt, (tr ++ [Exec (invocation self ("pause " ++ torrent_id torrent));
                  Exec (invocation self ("rm " ++ torrent_id torrent))])%list).
Proof.
  unfold Deluge.stop_and_remove, Deluge.stop, Deluge.remove, mbind, ret.
  destruct (run_command_trace self ("pause " ++ torrent_id torrent) tr)
    as [o1 ->].
  destruct (run_command_trace self ("rm " ++ torrent_id torrent)
              (tr ++ [Exec (invocation self ("pause " ++ torrent_id torrent))]))
    as [o2 ->].
  now rewrite <- app_assoc.
Qed.

(** ** The classification loop *)

Lemma mem_In (x : string) (l : list string) : mem x l = true <-> In x l.
Proof.
  unfold mem. rewrite existsb_exists. split.
  - intros [y [Hy E]]. apply String.eqb_eq in E. now subst.
  - intros H. exists x. split; [assumption | apply String.eqb_refl].
Qed.

Lemma classify_eq (t : Torrent) (limit : float) (allowed : list string) :
  classify t limit allowed =
  if mem (tracker t) allowed then
    if qualifies t limit then SkipAllowedTrackerOverLimit
    else SkipAllowedTrackerUnderLimit
  else if qualifies t limit then Delete else SkipRatio.
Proof.
  unfold classify, qualifies.
  destruct (in_dec string_dec (tracker t) allowed) as [Hi|Hi];
    destruct (mem (tracker t) allowed) eqn:Em;
    try (apply mem_In in Em; contradiction);
    try (apply mem_In in Hi; congruence);
    destruct (string_dec (state t) "Seeding") as [Hs|Hs];
    try (rewrite Hs, String.eqb_refl; simpl; reflexivity);
    apply String.eqb_neq in Hs; rewrite Hs; reflexivity.
Qed.

(** One round of the loop: the counter of the record's disposition goes up
    by one, and the two console commands are issued for [Delete] outside
    test mode only. *)
Lemma loop_body_eq (deluge : Deluge.t) (args : Args) (test : bool)
      (c : Counters) (t : Torrent) (tr : list event) :
  loop_body subprocess_run deluge args test c t tr =
  (Ok (tally c (classify t (ratio_limit args) (allowed_trackers args))),
   (tr ++
    if negb test && disposition_eqb
         (classify t (ratio_limit args) (allowed_trackers args)) Delete
    then [Exec (invocation deluge ("pause " ++ torrent_id t));
          Exec (invocation deluge ("rm " ++ torrent_id t))]
    else [])%list).
Proof.
  rewrite classify_eq. unfold loop_body, qualifies.
  destruct (mem (tracker t) (allowed_trackers args));
    destruct ((state t =? "Seeding") && float_ge (ratio t) (ratio_limit args));
    destruct test; simpl; unfold ret, mbind;
    rewrite ?stop_and_remove_trace, ?andb_false_r, ?app_nil_r; reflexivity.
Qed.

Lemma loop_eq (deluge : Deluge.t) (args : Args) (test : bool)
      (torrents : list Torrent) (c : Counters) (tr : list event) :
  loop subprocess_run deluge args test c torrents tr =
  (Ok (tally_all c (ratio_limit args) (allowed_trackers args) torrents),
   (tr ++ if test then []
          else loop_commands deluge (ratio_limit args) (allowed_trackers args)
                             torrents)%list).
Proof.
  revert c tr. induction torrents as [|t rest IH]; intros c tr; simpl.
  - unfold ret. now destruct test; rewrite app_nil_r.
  - unfold mbind. rewrite loop_body_eq, IH.
    destruct test; simpl; now rewrite <- ?app_assoc.
Qed.

Lemma total_tally (c : Counters) (d : Disposition) :
  total (tally c d) = S (total c).
Proof.
  destruct d; unfold total; simpl; lia.
Qed.

Lemma total_tally_all (limit : float) (allowed : list string)
      (torrents : list Torrent) (c : Counters) :
  total (tally_all c limit allowed torrents) = total c + List.length torrents.
Proof.
  revert c. induction torrents as [|t rest IH]; intros c; simpl.
  - lia.
  - rewrite IH, total_tally. lia.
Qed.

(** C1.  Every round of the loop over the parsed records counts the
    record under the disposition the decision rule [classify] gives it:
    allow-listed tracker first, then state ["Seeding"] together with
    [ratio >= ratio_limit].  The comparison is inclusive: a ["Seeding"]
    record whose ratio equals the limit is [SkipAllowedTrackerOverLimit]
    on an allow-listed tracker and [Delete] otherwise. *)
Theorem classification_rule (deluge : Deluge.t) (args : Args) (test : bool)
        (c : Counters) (t : Torrent) (tr : list event) :
  fst (loop_body subprocess_run deluge args test c t tr) =
    Ok (tally c (classify t (ratio_limit args) (allowed_trackers args)))
  /\ (forall limit allowed,
        state t = "Seeding" -> float_eq (ratio t) limit = true ->
        classify t limit allowed =
        if in_dec string_dec (tracker t) allowed
        then SkipAllowedTrackerOverLimit else Delete).
Proof.
  split.
  - now rewrite loop_body_eq.
  - intros limit allowed Hs He. apply float_eq_ge in He.
    unfold classify. rewrite He.
    destruct (string_dec (state t) "Seeding") as [_|n]; [|contradiction].
    reflexivity.
Qed.

(** C2.  Outside test mode, a record classified [Delete] makes the loop
    issue exactly two console commands, [pause id] and then [rm id], and
    the round ends normally; this holds for every behaviour of the
    console, so also when the pause command exits with an error. *)
Theorem delete_pauses_then_removes (deluge : Deluge.t) (args : Args)
        (c : Counters) (t : Torrent) (tr : list event) :
  classify t (ratio_limit args) (allowed_trackers args) = Delete ->
  loop_body subprocess_run deluge args false c t tr =
  (Ok (tally c Delete),
   (tr ++ [Exec (invocation deluge ("pause " ++ torrent_id t));
           Exec (invocation deluge ("rm " ++ torrent_id t))])%list).
Proof.
  intros H. now rewrite loop_body_eq, H.
Qed.

(** C10.  A round of the loop increments exactly one of the four counters
    by one, and after the loop the four counters, started at zero, sum to
    the number of parsed records. *)
Theorem counters_sum_to_total (deluge : Deluge.t) (args : Args) (test : bool)
        (torrents : list Torrent) (tr : list event) :
  (forall c t tr0, exists d,
      fst (loop_body subprocess_run deluge args test c t tr0) = Ok (tally c d))
  /\ exists c tr',
      loop subprocess_run deluge args test counters0 torrents tr = (Ok c, tr')
      /\ deleted c + skipped_ratio c + skipped_tracker c
         + skipped_tracker_ratio c = List.length torrents.
Proof.
  split.
  - intros c t tr0. eexists. now rewrite loop_body_eq.
  - rewrite loop_eq. do 2 eexists. split; [reflexivity|].
    apply (total_tally_all (ratio_limit args) (allowed_trackers args)
                           torrents counters0).
Qed.

End ClientFacts.

(** ** Order in a list of optional values *)

Lemma somes_nth {A : Type} (os : list (option A)) (j : nat) (b : A) :
  nth_error os j = Some (Some b) -> exists k, nth_error (somes os) k = Some b.
Proof.
  revert j. induction os as [|o os IH]; intros [|j]; simpl; try discriminate.
  - intros [= ->]. now exists 0.
  - intros H. destruct (IH j H) as [k Hk].
    destruct o; [now exists (S k) | now exists k].
Qed.

Lemma somes_order {A : Type} (os : list (option A)) (i j : nat) (a b : A) :
  i < j ->
  nth_error os i = Some (Some a) -> nth_error os j = Some (Some b) ->
  exists i' j', i' < j'
    /\ nth_error (somes os) i' = Some a /\ nth_error (somes os) j' = Some b.
Proof.
  revert i j. induction os as [|o os IH]; intros i j Hij Hi Hj.
  - now destruct i.
  - destruct j as [|j]; [lia|]. simpl in Hj. destruct i as [|i]; simpl in Hi.
    + injection Hi as ->. destruct (somes_nth os j b Hj) as [k Hk].
      exists 0, (S k). simpl. repeat split; (lia || assumption).
    + destruct (IH i j ltac:(lia) Hi Hj) as [i' [j' [Hlt [Ha Hb]]]].
      destruct o.
      * exists (S i'), (S j'). simpl. repeat split; (lia || assumption).
      * exists i', j'. simpl. repeat split; assumption.
Qed.

(** ** The report parser *)

Section ParserFacts.

Variable float_of_str : string -> option float.

Lemma index1_once (sep s b a : string) :
  sep <> "" -> Str.partition sep s = Some (b, a) -> Str.contains sep a = false ->
  index1 (Str.split sep s) = Ok a.
Proof.
  intros Hsep H Ha. unfold index1.
  now rewrite (StrFacts.split_index1_once sep s b a).
Qed.

Lemma index1_ok (sep s : string) :
  sep <> "" -> Str.contains sep s = true ->
  exists x, index1 (Str.split sep s) = Ok x.
Proof.
  intros Hsep H. unfold index1.
  destruct (StrFacts.split_index1_some sep s Hsep H) as [x ->]. now exists x.
Qed.

Lemma index1_label (label rest : string) :
  label <> "" -> Str.contains label rest = false ->
  index1 (Str.split label (label ++ rest)) = Ok rest.
Proof.
  intros Hl Hr. apply (index1_once label (label ++ rest) "" rest); try assumption.
  rewrite StrFacts.startswith_partition by apply StrFacts.startswith_app.
  now rewrite StrFacts.drop_app.
Qed.

(** A line that passes the tests on [Name:], [ID:] and [State:] and
    contains [Share Ratio:] once. *)
Lemma parse_line_ratio (v : Locals) (line before rest : string) :
  Str.startswith "Name:" line = false ->
  Str.startswith "ID:" line = false ->
  Str.startswith "State:" line = false ->
  Str.partition "Share Ratio:" line = Some (before, rest) ->
  Str.contains "Share Ratio:" rest = false ->
  parse_line float_of_str v line =
  (r <- to_float float_of_str (Str.strip rest);;
   Ok (mkLocals (l_name v) (l_torrent_id v) (l_state v) r (l_tracker v))).
Proof.
  intros Hn Hi Hs Hp Hr. unfold parse_line. rewrite Hn, Hi, Hs.
  rewrite StrFacts.contains_partition, Hp.
  now rewrite (index1_once "Share Ratio:" line before rest).
Qed.

(** [l[1]] is never out of range in [parse_line]: the only exception of a
    line is the [ValueError] of [float()]. *)
Lemma parse_line_raise (v : Locals) (line : string) (e : exn) :
  parse_line float_of_str v line = Raise e -> e = ValueError.
Proof.
  unfold parse_line.
  destruct (Str.startswith "Name:" line) eqn:Hn.
  { apply StrFacts.startswith_contains in Hn.
    destruct (index1_ok "Name:" line) as [x ->]; (discriminate || assumption). }
  destruct (Str.startswith "ID:" line) eqn:Hi.
  { apply StrFacts.startswith_contains in Hi.
    destruct (index1_ok "ID:" line) as [x ->]; (discriminate || assumption). }
  destruct (Str.startswith "State:" line) eqn:Hs.
  { apply StrFacts.startswith_contains in Hs.
    destruct (index1_ok "State:" line) as [x ->]; (discriminate || assumption). }
  destruct (Str.contains "Share Ratio:" line) eqn:Hr.
  { destruct (index1_ok "Share Ratio:" line) as [x ->]; try (discriminate || assumption).
    simpl. unfold to_float. destruct (float_of_str (Str.strip x)); simpl.
    - discriminate.
    - now intros [= <-]. }
  destruct (Str.startswith "Tracker:" line) eqn:Ht.
  { apply StrFacts.startswith_contains in Ht.
    destruct (index1_ok "Tracker:" line) as [x ->]; (discriminate || assumption). }
  discriminate.
Qed.

Lemma parse_lines_raise (lines : list string) (v : Locals) (e : exn) :
  parse_lines float_of_str v lines = Raise e -> e = ValueError.
Proof.
  revert v. induction lines as [|line rest IH]; intros v; simpl.
  - discriminate.
  - destruct (parse_line float_of_str v line) as [v'|e'] eqn:E; simpl.
    + apply IH.
    + intros [= <-]. now apply parse_line_raise in E.
Qed.

Lemma parse_section_raise (section : string) (e : exn) :
  parse_section float_of_str section = Raise e -> e = ValueError.
Proof.
  unfold parse_section.
  destruct (parse_lines float_of_str locals0 (Str.split Str.nl section))
    as [v|e'] eqn:E; simpl.
  - now destruct (Str.truthy (l_name v) && Str.truthy (l_torrent_id v)).
  - intros [= <-]. now apply parse_lines_raise in E.
Qed.




(** The truth value of a string, against the empty string. *)
Lemma truthy_retained (v : Locals) :
  Str.truthy (l_name v) && Str.truthy (l_torrent_id v) = retained v.
Proof.
  unfold retained. now destruct (l_name v), (l_torrent_id v).
Qed.

Lemma parse_section_eq (section : string) :
  parse_section float_of_str section =
  (v <- parse_lines float_of_str locals0 (Str.split Str.nl section);;
   Ok (if retained v then Some (record_of v) else None)).
Proof.
  unfold parse_section.
  destruct (parse_lines float_of_str locals0 (Str.split Str.nl section)) as [v|e];
    simpl; [|reflexivity].
  rewrite truthy_retained. now destruct (retained v).
Qed.

(** The loop over sections appends the records of the rounds, in order. *)
Lemma parse_sections_somes (sections : list string) (os : list (option Torrent)) :
  Forall2 (fun s o => parse_section float_of_str s = Ok o) sections os ->
  forall torrents,
    parse_sections float_of_str sections torrents = Ok (torrents ++ somes os)%list.
Proof.
  induction 1 as [|s o sections os Hs _ IH]; intros torrents; simpl.
  - now rewrite app_nil_r.
  - rewrite Hs. simpl. rewrite IH. destruct o; [|reflexivity].
    now rewrite <- app_assoc.
Qed.

Lemma parse_sections_inv (sections : list string) :
  forall torrents result,
    parse_sections float_of_str sections torrents = Ok result ->
    exists os,
      Forall2 (fun s o => parse_section float_of_str s = Ok o) sections os
      /\ result = (torrents ++ somes os)%list.
Proof.
  induction sections as [|s rest IH]; intros torrents result; simpl.
  - intros [= <-]. exists []. split; [constructor | now rewrite app_nil_r].
  - destruct (parse_section float_of_str s) as [o|e] eqn:E; simpl; [|discriminate].
    intros H. apply IH in H. destruct H as [os [HF ->]].
    exists (o :: os). split; [now constructor|].
    destruct o; [|reflexivity]. simpl. now rewrite <- app_assoc.
Qed.

Lemma somes_map_retained (vs : list Locals) :
  somes (map (fun v => if retained v then Some (record_of v) else None) vs) =
  map record_of (filter retained vs).
Proof.
  induction vs as [|v vs IH]; simpl; [reflexivity|].
  destruct (retained v); simpl; now rewrite IH.
Qed.

(** C4.  When the lines of every block of the dump are processed without
    error, the parser returns, without error, the records of exactly the
    blocks whose name and id are both non-empty, whatever their other
    fields; the other blocks leave no trace in the result. *)
Theorem retained_iff_name_and_id (torrent_info : string) (vs : list Locals) :
  Forall2 (fun block v =>
             parse_lines float_of_str locals0 (Str.split Str.nl block) = Ok v)
          (Str.split Str.nlnl torrent_info) vs ->
  parse_torrent_info float_of_str torrent_info =
  Ok (map record_of (filter retained vs)).
Proof.
  intros H. unfold parse_torrent_info.
  rewrite (parse_sections_somes _
             (map (fun v => if retained v then Some (record_of v) else None) vs)).
  - simpl. now rewrite somes_map_retained.
  - induction H as [|block v blocks vs Hb _ IH]; simpl; constructor; [|exact IH].
    now rewrite parse_section_eq, Hb.
Qed.

(** C5, amended.  A line that does not start with [Name:], [ID:] or
    [State:] and contains [Share Ratio:] once sets the ratio to the
    remainder of the line after that label, trimmed and parsed as a float;
    the line raises when [float()] does. *)
Theorem share_ratio_line (v : Locals) (line before rest : string) :
  Str.startswith "Name:" line = false ->
  Str.startswith "ID:" line = false ->
  Str.startswith "State:" line = false ->
  Str.partition "Share Ratio:" line = Some (before, rest) ->
  Str.contains "Share Ratio:" rest = false ->
  line = before ++ "Share Ratio:" ++ rest
  /\ parse_line float_of_str v line =
     match float_of_str (Str.strip rest) with
     | Some r => Ok (mkLocals (l_name v) (l_torrent_id v) (l_state v) r (l_tracker v))
     | None => Raise ValueError
     end.
Proof.
  intros Hn Hi Hs Hp Hr. split.
  - now apply StrFacts.partition_sound.
  - rewrite (parse_line_ratio v line before rest) by assumption.
    unfold to_float. now destruct (float_of_str (Str.strip rest)).
Qed.

(** C6, amended.  A line that starts with [Name:], [ID:] or [State:], or
    that starts with [Tracker:] and does not contain [Share Ratio:], and in
    which the label does not occur again, sets the field of the label to
    the whole remainder of the line, trimmed. *)
Theorem label_line (v : Locals) (rest : string) :
  (Str.contains "Name:" rest = false ->
   parse_line float_of_str v ("Name:" ++ rest) =
   Ok (mkLocals (Str.strip rest) (l_torrent_id v) (l_state v) (l_ratio v) (l_tracker v)))
  /\ (Str.contains "ID:" rest = false ->
      parse_line float_of_str v ("ID:" ++ rest) =
      Ok (mkLocals (l_name v) (Str.strip rest) (l_state v) (l_ratio v) (l_tracker v)))
  /\ (Str.contains "State:" rest = false ->
      parse_line float_of_str v ("State:" ++ rest) =
      Ok (mkLocals (l_name v) (l_torrent_id v) (Str.strip rest) (l_ratio v) (l_tracker v)))
  /\ (Str.contains "Share Ratio:" rest = false ->
      Str.contains "Tracker:" rest = false ->
      parse_line float_of_str v ("Tracker:" ++ rest) =
      Ok (mkLocals (l_name v) (l_torrent_id v) (l_state v) (l_ratio v) (Str.strip rest))).
Proof.
  repeat split.
  - intros H. unfold parse_line. rewrite StrFacts.startswith_app.
    now rewrite index1_label.
  - intros H. unfold parse_line.
    change (Str.startswith "Name:" ("ID:" ++ rest)) with false.
    rewrite StrFacts.startswith_app. now rewrite index1_label.
  - intros H. unfold parse_line.
    change (Str.startswith "Name:" ("State:" ++ rest)) with false.
    change (Str.startswith "ID:" ("State:" ++ rest)) with false.
    rewrite StrFacts.startswith_app. now rewrite index1_label.
  - intros Hr H. unfold parse_line.
    change (Str.startswith "Name:" ("Tracker:" ++ rest)) with false.
    change (Str.startswith "ID:" ("Tracker:" ++ rest)) with false.
    change (Str.startswith "State:" ("Tracker:" ++ rest)) with false.
    change (Str.contains "Share Ratio:" ("Tracker:" ++ rest))
      with (Str.contains "Share Ratio:" rest).
    rewrite Hr, StrFacts.startswith_app. now rewrite index1_label.
Qed.

(** C9.  The records the parser returns are those of the retained blocks,
    in the order of the blocks: when block [i] comes before block [j] and
    both are retained, the record of the first stands before the record of
    the second in the result. *)
Theorem parse_preserves_order (torrent_info : string) (torrents : list Torrent) :
  parse_torrent_info float_of_str torrent_info = Ok torrents ->
  exists os,
    Forall2 (fun block o => parse_section float_of_str block = Ok o)
            (Str.split Str.nlnl torrent_info) os
    /\ torrents = somes os
    /\ forall i j tA tB,
        i < j ->
        nth_error os i = Some (Some tA) -> nth_error os j = Some (Some tB) ->
        exists i' j', i' < j'
          /\ nth_error torrents i' = Some tA /\ nth_error torrents j' = Some tB.
Proof.
  intros H. apply parse_sections_inv in H. destruct H as [os [HF ->]].
  exists os. repeat split; [assumption|].
  intros i j tA tB. apply somes_order.
Qed.

End ParserFacts.

(** ** The orchestrator *)

Lemma append_cancel (a x y : string) : a ++ x = a ++ y -> x = y.
Proof.
  induction a as [|c a IH]; simpl; [trivial|]. intros [= H]. now apply IH.
Qed.

Lemma full_command_inj (self : Deluge.t) (c1 c2 : string) :
  Deluge.full_command self c1 = Deluge.full_command self c2 ->
  c1 ++ Deluge.dquote = c2 ++ Deluge.dquote.
Proof.
  unfold Deluge.full_command. intros H.
  repeat (apply append_cancel in H). exact H.
Qed.

(** Fetching the dump is not a mutating command. *)
Lemma fetch_not_mutating (self : Deluge.t) :
  ~ mutating self (invocation self "info --detailed").
Proof.
  assert (Hd : forall a b, Docker a = Docker b -> a = b) by (now intros a b [=]).
  assert (Hs : forall a b, Shell a = Shell b -> a = b) by (now intros a b [=]).
  intros [i [H|H]]; unfold invocation in H;
    destruct (truthy (Deluge.container self));
    (apply Hd in H || apply Hs in H); apply full_command_inj in H;
    discriminate.
Qed.

Lemma execs_app (a b : list event) : execs (a ++ b) = (execs a ++ execs b)%list.
Proof.
  induction a as [|e a IH]; simpl; [reflexivity|].
  destruct e; simpl; now rewrite IH.
Qed.

Lemma execs_save_events (config : option Snapshot) (args : Args) :
  execs (save_events config args) = [].
Proof.
  unfold save_events. destruct config as [c|]; [|reflexivity].
  now destruct (snapshot_eqb c (vars args)).
Qed.

Lemma execs_summary_events (test : bool) (n : nat) (c : Counters) :
  execs (summary_events test n c) = [].
Proof.
  reflexivity.
Qed.

(** The counters after the loop are the numbers of records of each
    disposition. *)
Lemma tally_all_counts (limit : float) (allowed : list string)
      (torrents : list Torrent) (c : Counters) :
  let c' := tally_all c limit allowed torrents in
  deleted c' = deleted c + count_disposition Delete limit allowed torrents
  /\ skipped_ratio c' =
     skipped_ratio c + count_disposition SkipRatio limit allowed torrents
  /\ skipped_tracker c' =
     skipped_tracker c
     + count_disposition SkipAllowedTrackerUnderLimit limit allowed torrents
  /\ skipped_tracker_ratio c' =
     skipped_tracker_ratio c
     + count_disposition SkipAllowedTrackerOverLimit limit allowed torrents.
Proof.
  revert c. unfold count_disposition.
  induction torrents as [|t rest IH]; intros c; simpl.
  - repeat split; lia.
  - specialize (IH (tally c (classify t limit allowed))).
    simpl in IH. destruct IH as [H1 [H2 [H3 H4]]].
    rewrite H1, H2, H3, H4.
    destruct (classify t limit allowed); simpl; repeat split; lia.
Qed.

(** [missing_args] is empty exactly when no required argument is falsy. *)
Lemma missing_filter (args : Args) :
  match filter (fun arg => negb (truthy (getattr args arg))) required_args with
  | [] => false
  | _ :: _ => true
  end = missing args.
Proof.
  unfold missing, required_args, getattr. simpl.
  destruct (truthy (host args)), (truthy (port args)), (truthy (user args)),
    (truthy (password args)); reflexivity.
Qed.

Section MainFacts.

Variable float_of_str : string -> option float.
Variable subprocess_run : list event -> call -> CompletedProcess.

Lemma summary_eq (test : bool) (n : nat) (c : Counters) (tr : list event) :
  summary test n c tr = (Ok tt, (tr ++ summary_events test n c)%list).
Proof.
  unfold summary, summary_events, mbind, emit.
  destruct test; simpl; now rewrite <- !app_assoc.
Qed.

Lemma get_all_torrents_eq (args : Args) (tr : list event) :
  Deluge.get_all_torrents subprocess_run (client_of args) tr =
  (Ok (fetched subprocess_run args tr),
   (tr ++ [Exec (invocation (client_of args) "info --detailed")])%list).
Proof.
  unfold fetched, Deluge.get_all_torrents.
  now destruct (run_command_trace subprocess_run (client_of args)
                                  "info --detailed" tr) as [out ->].
Qed.

(** The whole run, from an empty trace. *)
Lemma main_eq (config : option Snapshot) (args : Args) :
  main float_of_str subprocess_run config args [] =
  if missing args then (Raise ValueError, [])
  else
    let deluge := client_of args in
    let pre := save_events config args in
    let tr1 := (pre ++ [Exec (invocation deluge "info --detailed")])%list in
    match parse_torrent_info float_of_str (fetched subprocess_run args pre) with
    | Raise e => (Raise e, tr1)
    | Ok torrents =>
        (Ok tt,
         (tr1
          ++ (if test args then []
              else loop_commands deluge (ratio_limit args) (allowed_trackers args)
                                 torrents)
          ++ (if (1 <=? (if test args then 2 else verbose args))%nat
              then summary_events (test args) (List.length torrents)
                     (tally_all counters0 (ratio_limit args)
                                (allowed_trackers args) torrents)
              else []))%list)
    end.
Proof.
  unfold main. cbv zeta. rewrite <- (missing_filter args).
  destruct (filter (fun arg => negb (truthy (getattr args arg))) required_args);
    [|reflexivity].
  unfold mbind at 1.
  assert (Hsave :
    (match config with
     | Some c => if snapshot_eqb c (vars args) then ret tt
                 else emit (SaveConfig (vars args))
     | None => emit (SaveConfig (vars args))
     end) [] = (Ok tt, save_events config args)).
  { unfold save_events. destruct config as [c|]; [|reflexivity].
    now destruct (snapshot_eqb c (vars args)). }
  rewrite Hsave. unfold mbind at 1.
  fold (client_of args). rewrite get_all_torrents_eq.
  unfold mbind at 1, lift.
  destruct (parse_torrent_info float_of_str
              (fetched subprocess_run args (save_events config args)))
    as [torrents|e]; [|reflexivity].
  unfold mbind. rewrite loop_eq.
  destruct (1 <=? (if test args then 2 else verbose args))%nat.
  - rewrite summary_eq. now rewrite <- !app_assoc.
  - unfold ret. now rewrite <- !app_assoc, app_nil_r.
Qed.


Lemma missing_eq (args : Args) :
  missing args =
  negb (truthy (host args) && truthy (port args) && truthy (user args)
        && truthy (password args)).
Proof.
  unfold missing, required_args, getattr. simpl.
  destruct (truthy (host args)), (truthy (port args)), (truthy (user args)),
    (truthy (password args)); reflexivity.
Qed.

(** C3.  In test mode, whatever the configuration and whatever the console
    returns, the only console command of the run is the fetch of the dump,
    which is neither a pause nor a remove; and when the dump parses, every
    record is still classified: the table reports the number of records
    classified [Delete] in the row [Would be deleted], and the numbers of
    the three other dispositions in their rows. *)
Theorem dry_run_never_mutates (config : option Snapshot) (args : Args) :
  test args = true ->
  (forall c,
      In c (execs (snd (main float_of_str subprocess_run config args []))) ->
      c = invocation (client_of args) "info --detailed"
      /\ ~ mutating (client_of args) c)
  /\ (forall torrents,
        missing args = false ->
        parse_torrent_info float_of_str
          (fetched subprocess_run args (save_events config args)) = Ok torrents ->
        let tr := snd (main float_of_str subprocess_run config args []) in
        let count d :=
          count_disposition d (ratio_limit args) (allowed_trackers args) torrents in
        fst (main float_of_str subprocess_run config args []) = Ok tt
        /\ In (PrintStat "Total torrents" (List.length torrents)) tr
        /\ In (PrintStat "Would be deleted" (count Delete)) tr
        /\ In (PrintStat "Due to ratio" (count SkipRatio)) tr
        /\ In (PrintStat "Allowed tracker (under limit)"
                         (count SkipAllowedTrackerUnderLimit)) tr
        /\ In (PrintStat "Allowed tracker (over limit)"
                         (count SkipAllowedTrackerOverLimit)) tr).
Proof.
  intros Ht. rewrite main_eq, Ht. split.
  - intros c. destruct (missing args); [now intros []|]. cbv zeta.
    assert (H : forall tl, execs tl = [] ->
              In c (execs ((save_events config args
                            ++ [Exec (invocation (client_of args) "info --detailed")])
                           ++ tl)) ->
              c = invocation (client_of args) "info --detailed").
    { intros tl Htl. rewrite !execs_app, execs_save_events, Htl. simpl.
      intros [<-|[]]. reflexivity. }
    intros Hin.
    assert (Hc : c = invocation (client_of args) "info --detailed").
    { destruct (parse_torrent_info float_of_str _) as [torrents|e].
      - simpl in Hin. apply (H _ (execs_summary_events _ _ _) Hin).
      - simpl in Hin. apply (H [] eq_refl). now rewrite app_nil_r. }
    split; [exact Hc|]. rewrite Hc. apply fetch_not_mutating.
  - intros torrents Hm Hp. rewrite Hm. cbv zeta. rewrite Hp. simpl fst. simpl snd.
    destruct (tally_all_counts (ratio_limit args) (allowed_trackers args)
                               torrents counters0) as [H1 [H2 [H3 H4]]].
    simpl in H1, H2, H3, H4. rewrite <- H1, <- H2, <- H3, <- H4.
    split; [reflexivity|].
    repeat split; apply in_or_app; right; simpl; tauto.
Qed.

(** C8.  When one of [host], [port], [user], [password] is missing (falsy:
    absent or empty) in the merged arguments, the run raises [ValueError]
    before anything happens, in particular before any console command;
    when the four are present, the first console command of the run is the
    fetch of the dump. *)
Theorem missing_required_aborts (config : option Snapshot) (args : Args) :
  (truthy (host args) = false \/ truthy (port args) = false
   \/ truthy (user args) = false \/ truthy (password args) = false ->
   main float_of_str subprocess_run config args [] = (Raise ValueError, []))
  /\ (truthy (host args) = true -> truthy (port args) = true ->
      truthy (user args) = true -> truthy (password args) = true ->
      exists rest,
        execs (snd (main float_of_str subprocess_run config args [])) =
        invocation (client_of args) "info --detailed" :: rest).
Proof.
  rewrite main_eq, missing_eq. split.
  - intros [H|[H|[H|H]]]; rewrite H; simpl; now rewrite ?andb_false_r.
  - intros -> -> -> ->. cbv zeta. simpl negb. cbv iota.
    destruct (parse_torrent_info float_of_str _) as [torrents|e]; simpl snd;
      rewrite !execs_app, execs_save_events; simpl; eexists; reflexivity.
Qed.

End MainFacts.

(** ** The properties on concrete inputs *)

Example py_float_samples :
  PyFloat.py_float "0.5" = Some Sample.half
  /\ PyFloat.py_float "0.6" = Some Sample.three_fifths
  /\ PyFloat.py_float " 1.0 " = Some Sample.one
  /\ PyFloat.py_float "1.5" = Some Sample.one_and_half
  /\ PyFloat.py_float "2.0" = Some Sample.two
  /\ PyFloat.py_float "x" = None
  /\ PyFloat.py_float "" = None.
Proof.
  vm_compute. repeat split.
Qed.

(** Scenario A of the specification: one qualifying record, no allow-list,
    not a test run: the fetch, then [pause 1], then [rm 1]. *)
Example scenario_A :
  execs (snd (main PyFloat.py_float (Sample.console Sample.blockA 0) None
                   Sample.args_run [])) =
  [invocation (client_of Sample.args_run) "info --detailed";
   invocation (client_of Sample.args_run) "pause 1";
   invocation (client_of Sample.args_run) "rm 1"].
Proof.
  vm_compute. reflexivity.
Qed.

(** Scenario B: the same record with its tracker allow-listed is counted as
    over the limit and no command follows the fetch. *)
Example scenario_B :
  classify Sample.torrentA Sample.half ["t1"] = SkipAllowedTrackerOverLimit
  /\ snd (loop_body (Sample.console "" 0) (client_of Sample.args_run)
                    (mkArgs VNone (VStr "localhost") (VInt 58846) (VStr "admin")
                            (VStr "secret") Sample.half ["t1"] false 0)
                    false counters0 Sample.torrentA []) = [].
Proof.
  split; reflexivity.
Qed.

(** Scenario C: a paused record is skipped whatever its ratio. *)
Example scenario_C :
  classify (mkTorrent "Y" "2" "Paused" Sample.two "t2") Sample.half [] = SkipRatio.
Proof.
  reflexivity.
Qed.

Lemma classification_rule_witness :
  fst (loop_body (Sample.console "" 0) (client_of Sample.args_run)
                 Sample.args_run false counters0 Sample.torrent_at_limit []) =
    Ok (mkCounters 1 0 0 0)
  /\ classify Sample.torrent_at_limit Sample.half ["t1"] =
     SkipAllowedTrackerOverLimit.
Proof.
  destruct (classification_rule (Sample.console "" 0) (client_of Sample.args_run)
              Sample.args_run false counters0 Sample.torrent_at_limit [])
    as [H1 H2].
  split.
  - exact H1.
  - exact (H2 Sample.half ["t1"] eq_refl eq_refl).
Defined.

Lemma delete_pauses_then_removes_witness :
  classify Sample.torrentA Sample.half [] = Delete
  /\ returncode (Sample.console "" 1 []
                   (invocation (client_of Sample.args_run) "pause 1")) = 1%Z
  /\ loop_body (Sample.console "" 1) (client_of Sample.args_run)
               Sample.args_run false counters0 Sample.torrentA [] =
     (Ok (mkCounters 1 0 0 0),
      [Exec (invocation (client_of Sample.args_run) "pause 1");
       Exec (invocation (client_of Sample.args_run) "rm 1")]).
Proof.
  split; [reflexivity|]. split; [reflexivity|].
  exact (delete_pauses_then_removes (Sample.console "" 1)
           (client_of Sample.args_run) Sample.args_run counters0
           Sample.torrentA [] eq_refl).
Defined.

Lemma dry_run_never_mutates_witness :
  test Sample.args_test = true
  /\ In (PrintStat "Would be deleted" 1)
        (snd (main PyFloat.py_float (Sample.console Sample.dump3 0) None
                   Sample.args_test []))
  /\ execs (snd (main PyFloat.py_float (Sample.console Sample.dump3 0) None
                      Sample.args_test [])) =
     [invocation (client_of Sample.args_test) "info --detailed"].
Proof.
  split; [reflexivity|].
  destruct (dry_run_never_mutates PyFloat.py_float
              (Sample.console Sample.dump3 0) None Sample.args_test eq_refl)
    as [_ H].
  destruct (H [Sample.torrentA; Sample.torrentB] eq_refl eq_refl)
    as [_ [_ [Hd _]]].
  split; [exact Hd | reflexivity].
Defined.

Lemma retained_iff_name_and_id_witness :
  Forall2 (fun block v =>
             parse_lines PyFloat.py_float locals0 (Str.split Str.nl block) = Ok v)
          (Str.split Str.nlnl Sample.dump3)
          [mkLocals "X" "1" "Seeding" Sample.three_fifths "t1";
           mkLocals "Z" "" "Seeding" Sample.two "";
           mkLocals "Y" "2" "Paused" Sample.half "t2"]
  /\ parse_torrent_info PyFloat.py_float Sample.dump3 =
     Ok [Sample.torrentA; Sample.torrentB].
Proof.
  assert (H : Forall2
                (fun block v =>
                   parse_lines PyFloat.py_float locals0 (Str.split Str.nl block)
                   = Ok v)
                (Str.split Str.nlnl Sample.dump3)
                [mkLocals "X" "1" "Seeding" Sample.three_fifths "t1";
                 mkLocals "Z" "" "Seeding" Sample.two "";
                 mkLocals "Y" "2" "Paused" Sample.half "t2"])
    by (repeat constructor).
  split; [exact H|].
  exact (retained_iff_name_and_id PyFloat.py_float Sample.dump3 _ H).
Defined.

Lemma share_ratio_line_witness :
  Str.startswith "Name:" "Size: 1.0 GiB Share Ratio: 1.5" = false
  /\ Str.startswith "ID:" "Size: 1.0 GiB Share Ratio: 1.5" = false
  /\ Str.startswith "State:" "Size: 1.0 GiB Share Ratio: 1.5" = false
  /\ Str.partition "Share Ratio:" "Size: 1.0 GiB Share Ratio: 1.5" =
     Some ("Size: 1.0 GiB ", " 1.5")
  /\ Str.contains "Share Ratio:" " 1.5" = false
  /\ parse_line PyFloat.py_float locals0 "Size: 1.0 GiB Share Ratio: 1.5" =
     Ok (mkLocals "" "" "" Sample.one_and_half "").
Proof.
  repeat (split; [reflexivity|]).
  exact (proj2 (share_ratio_line PyFloat.py_float locals0
                  "Size: 1.0 GiB Share Ratio: 1.5" "Size: 1.0 GiB " " 1.5"
                  eq_refl eq_refl eq_refl eq_refl eq_refl)).
Defined.

Lemma label_line_witness :
  parse_line PyFloat.py_float locals0 "Name: X " = Ok (mkLocals "X" "" "" (S754_zero false) "")
  /\ parse_line PyFloat.py_float locals0 "Tracker: t1" =
     Ok (mkLocals "" "" "" (S754_zero false) "t1").
Proof.
  split.
  - exact (proj1 (label_line PyFloat.py_float locals0 " X ") eq_refl).
  - exact (proj2 (proj2 (proj2 (label_line PyFloat.py_float locals0 " t1")))
             eq_refl eq_refl).
Defined.

Lemma missing_required_aborts_witness :
  truthy (port Sample.args_no_port) = false
  /\ main PyFloat.py_float (Sample.console Sample.blockA 0) None
          Sample.args_no_port [] = (Raise ValueError, []).
Proof.
  split; [reflexivity|].
  exact (proj1 (missing_required_aborts PyFloat.py_float
                  (Sample.console Sample.blockA 0) None Sample.args_no_port)
           (or_intror (or_introl eq_refl))).
Defined.

Lemma parse_preserves_order_witness :
  parse_torrent_info PyFloat.py_float Sample.dump3 =
    Ok [Sample.torrentA; Sample.torrentB]
  /\ exists os,
      Forall2 (fun block o => parse_section PyFloat.py_float block = Ok o)
              (Str.split Str.nlnl Sample.dump3) os
      /\ nth_error os 0 = Some (Some Sample.torrentA)
      /\ nth_error os 2 = Some (Some Sample.torrentB).
Proof.
  split; [reflexivity|].
  destruct (parse_preserves_order PyFloat.py_float Sample.dump3
              [Sample.torrentA; Sample.torrentB] eq_refl)
    as [os [HF [Hs _]]].
  exists os. split; [exact HF|].
  inversion HF as [|b1 o1 l1 os1 H1 HF1 Eb Eo]; subst os.
  inversion HF1 as [|b2 o2 l2 os2 H2 HF2 Eb2 Eo2]; subst os1.
  inversion HF2 as [|b3 o3 l3 os3 H3 HF3 Eb3 Eo3]; subst os2.
  inversion HF3; subst os3.
  vm_compute in H1. vm_compute in H3.
  injection H1 as <-. injection H3 as <-.
  split; reflexivity.
Defined.

(** C5, as stated, fails on a [Name:] line that contains [Share Ratio:]:
    the line sets the name and leaves the ratio at its initial [0], not at
    the [2.0] that follows the label. *)
Lemma share_ratio_counterexample :
  Str.contains "Share Ratio:" "Name: Share Ratio: 2.0" = true
  /\ PyFloat.py_float (Str.strip " 2.0") = Some Sample.two
  /\ exists v, parse_line PyFloat.py_float locals0 "Name: Share Ratio: 2.0" = Ok v
               /\ l_name v = "Share Ratio: 2.0"
               /\ l_ratio v = S754_zero false
               /\ l_ratio v <> Sample.two.
Proof.
  split; [reflexivity|]. split; [reflexivity|].
  eexists. split; [reflexivity|]. simpl. repeat split. discriminate.
Qed.

(** C6, as stated, fails on a [Tracker:] line that contains
    [Share Ratio:]: the test on [Share Ratio:] comes first, the line sets
    the ratio and leaves the tracker empty. *)
Lemma label_line_counterexample :
  Str.startswith "Tracker:" "Tracker: Share Ratio: 2.0" = true
  /\ exists v, parse_line PyFloat.py_float locals0 "Tracker: Share Ratio: 2.0" = Ok v
               /\ l_ratio v = Sample.two
               /\ l_tracker v = ""
               /\ l_tracker v <> Str.strip " Share Ratio: 2.0".
Proof.
  split; [reflexivity|].
  eexists. split; [reflexivity|]. simpl. repeat split. discriminate.
Qed.

(** C7 at a line in which the label occurs twice: the remainder of the
    line after the first label is no number, yet the parser reads [1.0] up
    to the second label, raises nothing and returns the record, and the
    run ends normally. *)
Lemma repeated_ratio_label_accepted :
  Str.partition "Share Ratio:" "Share Ratio: 1.0 Share Ratio: x" =
    Some ("", " 1.0 Share Ratio: x")
  /\ PyFloat.py_float (Str.strip " 1.0 Share Ratio: x") = None
  /\ parse_torrent_info PyFloat.py_float Sample.block_twice =
     Ok [mkTorrent "X" "1" "" Sample.one ""]
  /\ fst (main PyFloat.py_float (Sample.console Sample.block_twice 0) None
               Sample.args_run []) = Ok tt.
Proof.
  repeat split; vm_compute; reflexivity.
Qed.

(** * Further properties of the parser *)

(** ** Trimming *)

Module StripFacts.
Import Str.

(** A text that does not begin with whitespace. *)
Definition starts_clean (s : string) : Prop :=
  match s with
  | "" => True
  | String c _ => isspace c = false
  end.

Lemma lstrip_clean (s : string) : starts_clean (lstrip s).
Proof.
  induction s as [|c s IH]; simpl; [exact I|].
  destruct (isspace c) eqn:E; [exact IH | exact E].
Qed.

Lemma lstrip_of_clean (s : string) : starts_clean s -> lstrip s = s.
Proof.
  destruct s as [|c s]; simpl; [reflexivity|]. now intros ->.
Qed.

Lemma rstrip_clean (s : string) : starts_clean s -> starts_clean (rstrip s).
Proof.
  destruct s as [|c s]; simpl; [trivial|]. intros E. rewrite E.
  now destruct (rstrip s).
Qed.

Lemma rstrip_rstrip (s : string) : rstrip (rstrip s) = rstrip s.
Proof.
  induction s as [|c s IH]; simpl; [reflexivity|].
  destruct (rstrip s) as [|d r] eqn:E.
  - destruct (isspace c) eqn:Ec; simpl; [reflexivity | now rewrite Ec].
  - change (rstrip (String c (String d r))) with
      (match rstrip (String d r) with
       | "" => if isspace c then "" else String c ""
       | r' => String c r'
       end).
    now rewrite IH.
Qed.

Lemma strip_strip (s : string) : strip (strip s) = strip s.
Proof.
  unfold strip.
  rewrite (lstrip_of_clean (rstrip (lstrip s)))
    by (apply rstrip_clean, lstrip_clean).
  apply rstrip_rstrip.
Qed.

End StripFacts.

Section ParserMore.

Variable float_of_str : string -> option float.

Lemma parse_sections_raise (sections : list string) (torrents : list Torrent)
      (e : exn) :
  parse_sections float_of_str sections torrents = Raise e -> e = ValueError.
Proof.
  revert torrents. induction sections as [|s rest IH]; intros torrents; simpl.
  - discriminate.
  - destruct (parse_section float_of_str s) as [o|e'] eqn:E; simpl.
    + apply IH.
    + intros [= <-]. now apply parse_section_raise in E.
Qed.

(** The loop over lines, cut in two. *)
Lemma parse_lines_app (l1 l2 : list string) (v : Locals) :
  parse_lines float_of_str v (l1 ++ l2) =
  (v' <- parse_lines float_of_str v l1;; parse_lines float_of_str v' l2).
Proof.
  revert v. induction l1 as [|line l1 IH]; intros v; simpl; [reflexivity|].
  destruct (parse_line float_of_str v line) as [v'|e]; simpl; [apply IH | reflexivity].
Qed.

(** A line without [Share Ratio:] cannot raise and leaves the ratio. *)
Lemma parse_line_no_ratio (v : Locals) (line : string) :
  Str.contains "Share Ratio:" line = false ->
  exists v', parse_line float_of_str v line = Ok v' /\ l_ratio v' = l_ratio v.
Proof.
  intros Hr. unfold parse_line. rewrite Hr.
  destruct (Str.startswith "Name:" line) eqn:Hn.
  { apply StrFacts.startswith_contains in Hn.
    destruct (index1_ok "Name:" line) as [x ->]; try (discriminate || assumption).
    eexists; split; reflexivity. }
  destruct (Str.startswith "ID:" line) eqn:Hi.
  { apply StrFacts.startswith_contains in Hi.
    destruct (index1_ok "ID:" line) as [x ->]; try (discriminate || assumption).
    eexists; split; reflexivity. }
  destruct (Str.startswith "State:" line) eqn:Hs.
  { apply StrFacts.startswith_contains in Hs.
    destruct (index1_ok "State:" line) as [x ->]; try (discriminate || assumption).
    eexists; split; reflexivity. }
  destruct (Str.startswith "Tracker:" line) eqn:Ht.
  { apply StrFacts.startswith_contains in Ht.
    destruct (index1_ok "Tracker:" line) as [x ->]; try (discriminate || assumption).
    eexists; split; reflexivity. }
  eexists; split; reflexivity.
Qed.

Lemma parse_lines_no_ratio (lines : list string) (v : Locals) :
  (forall line, In line lines -> Str.contains "Share Ratio:" line = false) ->
  exists v', parse_lines float_of_str v lines = Ok v' /\ l_ratio v' = l_ratio v.
Proof.
  revert v. induction lines as [|line rest IH]; intros v H; simpl.
  - now exists v.
  - destruct (parse_line_no_ratio v line (H line (or_introl eq_refl)))
      as [v1 [-> E1]]. simpl.
    destruct (IH v1 (fun l Hl => H l (or_intror Hl))) as [v2 [-> E2]].
    exists v2. split; [reflexivity | congruence].
Qed.

(** The four text fields are either untouched or the result of [strip]. *)
Definition clean (v : Locals) : Prop :=
  trimmed (l_name v) /\ trimmed (l_torrent_id v)
  /\ trimmed (l_state v) /\ trimmed (l_tracker v).

Lemma parse_line_clean (v v' : Locals) (line : string) :
  clean v -> parse_line float_of_str v line = Ok v' -> clean v'.
Proof.
  unfold clean, trimmed. intros [H1 [H2 [H3 H4]]]. unfold parse_line.
  destruct (Str.startswith "Name:" line).
  { destruct (index1 (Str.split "Name:" line)); simpl; [|discriminate].
    intros [= <-]. simpl. now rewrite StripFacts.strip_strip. }
  destruct (Str.startswith "ID:" line).
  { destruct (index1 (Str.split "ID:" line)); simpl; [|discriminate].
    intros [= <-]. simpl. now rewrite StripFacts.strip_strip. }
  destruct (Str.startswith "State:" line).
  { destruct (index1 (Str.split "State:" line)); simpl; [|discriminate].
    intros [= <-]. simpl. now rewrite StripFacts.strip_strip. }
  destruct (Str.contains "Share Ratio:" line).
  { destruct (index1 (Str.split "Share Ratio:" line)) as [x|]; simpl; [|discriminate].
    destruct (to_float float_of_str (Str.strip x)); simpl; [|discriminate].
    intros [= <-]. simpl. tauto. }
  destruct (Str.startswith "Tracker:" line).
  { destruct (index1 (Str.split "Tracker:" line)); simpl; [|discriminate].
    intros [= <-]. simpl. now rewrite StripFacts.strip_strip. }
  intros [= <-]. tauto.
Qed.

Lemma parse_lines_clean (lines : list string) (v v' : Locals) :
  clean v -> parse_lines float_of_str v lines = Ok v' -> clean v'.
Proof.
  revert v. induction lines as [|line rest IH]; intros v Hc; simpl.
  - now intros [= <-].
  - destruct (parse_line float_of_str v line) as [v1|e] eqn:E; simpl; [|discriminate].
    apply IH. now apply (parse_line_clean v v1 line).
Qed.

(** What a round of the loop over sections appends. *)
Definition well_formed (t : Torrent) : Prop :=
  name t <> "" /\ torrent_id t <> ""
  /\ trimmed (name t) /\ trimmed (torrent_id t)
  /\ trimmed (state t) /\ trimmed (tracker t).

Lemma parse_section_well_formed (section : string) (t : Torrent) :
  parse_section float_of_str section = Ok (Some t) -> well_formed t.
Proof.
  rewrite parse_section_eq.
  destruct (parse_lines float_of_str locals0 (Str.split Str.nl section))
    as [v|e] eqn:E; simpl; [|discriminate].
  destruct (retained v) eqn:R; [|discriminate]. intros [= <-].
  assert (Hc : clean v).
  { apply (parse_lines_clean (Str.split Str.nl section) locals0 v);
      [repeat split | exact E]. }
  destruct Hc as [H1 [H2 [H3 H4]]]. unfold retained in R.
  apply andb_prop in R. destruct R as [Rn Ri].
  apply negb_true_iff in Rn, Ri. apply String.eqb_neq in Rn, Ri.
  unfold well_formed, record_of. simpl. tauto.
Qed.

End ParserMore.

Section ParserExtras.

Variable float_of_str : string -> option float.

(** X1.  The only exception [parse_torrent_info] raises is the
    [ValueError] of [float()]: every [split(label)[1]] stands behind a
    test that the line starts with or contains the label, so the index is
    never out of range. *)
Theorem parser_raises_only_ValueError (torrent_info : string) (e : exn) :
  parse_torrent_info float_of_str torrent_info = Raise e -> e = ValueError.
Proof.
  unfold parse_torrent_info. apply parse_sections_raise.
Qed.

Lemma parse_sections_forall (P : Torrent -> Prop) (sections : list string) :
  (forall s, In s sections ->
     exists o, parse_section float_of_str s = Ok o
               /\ forall t, o = Some t -> P t) ->
  forall torrents, Forall P torrents ->
    exists result,
      parse_sections float_of_str sections torrents = Ok result
      /\ Forall P result.
Proof.
  induction sections as [|s rest IH]; intros H torrents Hacc; simpl.
  - now exists torrents.
  - destruct (H s (or_introl eq_refl)) as [o [-> Ho]]. simpl.
    apply IH; [intros s' Hs'; apply H; now right|].
    destruct o as [t|]; [|assumption].
    apply Forall_app. split; [assumption|]. constructor; [now apply Ho | constructor].
Qed.

(** X2.  A dump none of whose lines contains [Share Ratio:] parses without
    error, and every record it yields has the initial ratio [0]. *)
Theorem no_ratio_line_defaults_to_zero (torrent_info : string) :
  (forall section line,
      In section (Str.split Str.nlnl torrent_info) ->
      In line (Str.split Str.nl section) ->
      Str.contains "Share Ratio:" line = false) ->
  exists torrents,
    parse_torrent_info float_of_str torrent_info = Ok torrents
    /\ Forall (fun t => ratio t = S754_zero false) torrents.
Proof.
  intros H. unfold parse_torrent_info.
  apply parse_sections_forall; [|constructor].
  intros s Hs. rewrite parse_section_eq.
  destruct (parse_lines_no_ratio float_of_str (Str.split Str.nl s) locals0
              (fun line Hl => H s line Hs Hl)) as [v [-> Hv]].
  simpl. eexists. split; [reflexivity|].
  intros t. destruct (retained v); [|discriminate].
  intros [= <-]. exact Hv.
Qed.

(** A line that passes none of the five tests. *)
Definition unrecognized (line : string) : Prop :=
  Str.startswith "Name:" line = false
  /\ Str.startswith "ID:" line = false
  /\ Str.startswith "State:" line = false
  /\ Str.contains "Share Ratio:" line = false
  /\ Str.startswith "Tracker:" line = false.

(** X3.  A line that starts with none of the labels and does not contain
    [Share Ratio:] has no effect, wherever it stands in a block: the block
    gives the same result, record or exception, without it. *)
Theorem unrecognized_line_is_ignored (before after : list string) (line : string)
        (v : Locals) :
  unrecognized line ->
  parse_lines float_of_str v (before ++ line :: after) =
  parse_lines float_of_str v (before ++ after).
Proof.
  intros [Hn [Hi [Hs [Hr Ht]]]]. rewrite !parse_lines_app.
  destruct (parse_lines float_of_str v before) as [v1|e]; simpl; [|reflexivity].
  unfold parse_line. now rewrite Hn, Hi, Hs, Hr, Ht.
Qed.

(** X4.  Every record the parser returns has a non-empty name and id, and
    its name, id, state and tracker carry no leading or trailing
    whitespace. *)
Theorem parsed_records_well_formed (torrent_info : string)
        (torrents : list Torrent) :
  parse_torrent_info float_of_str torrent_info = Ok torrents ->
  Forall well_formed torrents.
Proof.
  intros H. apply parse_sections_inv in H. destruct H as [os [HF ->]]. simpl.
  induction HF as [|s o sections os Hs _ IH]; simpl; [constructor|].
  destruct o as [t|]; [|exact IH].
  constructor; [|exact IH]. now apply (parse_section_well_formed float_of_str s).
Qed.

(** X5.  When a block has several [Name:] or [ID:] lines, the last one
    decides: a further such line, in which the label does not occur again,
    replaces the field whatever the earlier lines set. *)
Theorem last_label_line_wins (lines : list string) (rest : string) (v v1 : Locals) :
  parse_lines float_of_str v lines = Ok v1 ->
  (Str.contains "Name:" rest = false ->
   parse_lines float_of_str v (lines ++ ["Name:" ++ rest]) =
   Ok (mkLocals (Str.strip rest) (l_torrent_id v1) (l_state v1) (l_ratio v1)
                (l_tracker v1)))
  /\ (Str.contains "ID:" rest = false ->
      parse_lines float_of_str v (lines ++ ["ID:" ++ rest]) =
      Ok (mkLocals (l_name v1) (Str.strip rest) (l_state v1) (l_ratio v1)
                   (l_tracker v1))).
Proof.
  intros H. split; intros Hr; rewrite parse_lines_app, H;
    cbv beta iota delta [bind parse_lines]; unfold parse_line.
  - rewrite StrFacts.startswith_app. now rewrite index1_label.
  - change (Str.startswith "Name:" ("ID:" ++ rest)) with false.
    rewrite StrFacts.startswith_app. now rewrite index1_label.
Qed.

End ParserExtras.

(** * Further properties of the run *)

Lemma append_cancel_r (x y z : string) : x ++ z = y ++ z -> x = y.
Proof.
  revert y. induction x as [|c x IH]; intros [|d y] H; simpl in H.
  - reflexivity.
  - apply (f_equal String.length) in H. simpl in H.
    rewrite StrFacts.length_append in H. lia.
  - apply (f_equal String.length) in H. simpl in H.
    rewrite StrFacts.length_append in H. lia.
  - injection H as -> H. f_equal. now apply IH.
Qed.

(** Distinct commands give distinct invocations. *)
Lemma invocation_inj (self : Deluge.t) (c1 c2 : string) :
  invocation self c1 = invocation self c2 -> c1 = c2.
Proof.
  assert (Hd : forall a b, Docker a = Docker b -> a = b) by (now intros a b [=]).
  assert (Hs : forall a b, Shell a = Shell b -> a = b) by (now intros a b [=]).
  unfold invocation. intros H.
  destruct (truthy (Deluge.container self));
    (apply Hd in H || apply Hs in H); apply full_command_inj in H;
    now apply append_cancel_r in H.
Qed.

Lemma deletable_classify (args : Args) (t : Torrent) :
  disposition_eqb (classify t (ratio_limit args) (allowed_trackers args)) Delete =
  deletable args t.
Proof.
  rewrite classify_eq. unfold deletable, qualifies.
  destruct (mem (tracker t) (allowed_trackers args)); simpl;
    now destruct ((state t =? "Seeding") && float_ge (ratio t) (ratio_limit args)).
Qed.

Lemma execs_loop_commands (self : Deluge.t) (args : Args) (torrents : list Torrent) :
  execs (loop_commands self (ratio_limit args) (allowed_trackers args) torrents) =
  flat_map (pause_rm self) (filter (deletable args) torrents).
Proof.
  induction torrents as [|t rest IH]; simpl; [reflexivity|].
  rewrite execs_app, IH, deletable_classify.
  now destruct (deletable args t).
Qed.

Lemma stats_app (a b : list event) : stats (a ++ b) = (stats a ++ stats b)%list.
Proof.
  induction a as [|e a IH]; simpl; [reflexivity|].
  destruct e; simpl; now rewrite IH.
Qed.

Lemma stats_save_events (config : option Snapshot) (args : Args) :
  stats (save_events config args) = [].
Proof.
  unfold save_events. destruct config as [c|]; [|reflexivity].
  now destruct (snapshot_eqb c (vars args)).
Qed.

Lemma stats_loop_commands (self : Deluge.t) (limit : float)
      (allowed : list string) (torrents : list Torrent) :
  stats (loop_commands self limit allowed torrents) = [].
Proof.
  induction torrents as [|t rest IH]; simpl; [reflexivity|].
  rewrite stats_app, IH. now destruct (disposition_eqb _ Delete).
Qed.

Lemma stats_In (tr : list event) (label : string) (value : nat) :
  In (PrintStat label value) tr <-> In (label, value) (stats tr).
Proof.
  induction tr as [|e tr IH]; simpl; [tauto|].
  destruct e as [c|s|l v]; simpl; rewrite <- IH; split;
    try (intros [H|H]; [discriminate | now auto]); try (now intros; auto).
  - intros [[= -> ->]|H]; auto.
  - intros [[= -> ->]|H]; auto.
Qed.

Lemma float_ge_nan (r : float) : float_ge r S754_nan = false.
Proof.
  reflexivity.
Qed.

Lemma count_deletable (args : Args) (torrents : list Torrent) :
  count_disposition Delete (ratio_limit args) (allowed_trackers args) torrents =
  List.length (filter (deletable args) torrents).
Proof.
  unfold count_disposition. f_equal.
  induction torrents as [|t rest IH]; simpl; [reflexivity|].
  now rewrite IH, deletable_classify.
Qed.

Lemma length_flat_map_pause_rm (self : Deluge.t) (l : list Torrent) :
  List.length (flat_map (pause_rm self) l) = 2 * List.length l.
Proof.
  induction l as [|t l IH]; simpl; [reflexivity|]. rewrite IH. lia.
Qed.

Section MainExtras.

Variable float_of_str : string -> option float.
Variable subprocess_run : list event -> call -> CompletedProcess.

(** The console invocations of a run. *)
Lemma execs_main (config : option Snapshot) (args : Args) :
  execs (snd (main float_of_str subprocess_run config args [])) =
  if missing args then []
  else
    invocation (client_of args) "info --detailed"
    :: match parse_torrent_info float_of_str
               (fetched subprocess_run args (save_events config args)) with
       | Ok torrents =>
           if test args then []
           else flat_map (pause_rm (client_of args))
                         (filter (deletable args) torrents)
       | Raise _ => []
       end.
Proof.
  rewrite main_eq. destruct (missing args); [reflexivity|]. cbv zeta.
  destruct (parse_torrent_info float_of_str _) as [torrents|e]; simpl snd.
  - rewrite !execs_app, execs_save_events.
    assert (Hs : forall (b : bool) n c,
               execs (if b then summary_events (test args) n c else []) = [])
      by (now intros [|] n c).
    rewrite Hs, app_nil_r. cbn [execs app]. f_equal.
    destruct (test args); [reflexivity | apply execs_loop_commands].
  - now rewrite execs_app, execs_save_events.
Qed.

(** The table rows of a run. *)
Lemma stats_main (config : option Snapshot) (args : Args) :
  stats (snd (main float_of_str subprocess_run config args [])) =
  if missing args then []
  else
    match parse_torrent_info float_of_str
            (fetched subprocess_run args (save_events config args)) with
    | Ok torrents =>
        if prints_table args
        then stats (summary_events (test args) (List.length torrents)
                      (tally_all counters0 (ratio_limit args)
                                 (allowed_trackers args) torrents))
        else []
    | Raise _ => []
    end.
Proof.
  rewrite main_eq. unfold prints_table.
  destruct (missing args); [reflexivity|]. cbv zeta.
  destruct (parse_torrent_info float_of_str _) as [torrents|e]; simpl snd.
  - rewrite !stats_app, stats_save_events. simpl app.
    assert (H : stats (if test args then []
                       else loop_commands (client_of args) (ratio_limit args)
                              (allowed_trackers args) torrents) = []).
    { destruct (test args); [reflexivity | apply stats_loop_commands]. }
    rewrite H. simpl app.
    destruct (test args); [reflexivity|]. now destruct (verbose args).
  - now rewrite stats_app, stats_save_events.
Qed.




(** X8.  Outside test mode, when the dump parses, the console commands of
    the run are the fetch followed, for each record that is not
    allow-listed, is ["Seeding"] and has [ratio >= ratio_limit], in the
    order of the dump, by [pause id] and [rm id]; nothing else. *)
Theorem run_issues_fetch_then_pairs (config : option Snapshot) (args : Args)
        (torrents : list Torrent) :
  test args = false ->
  missing args = false ->
  parse_torrent_info float_of_str
    (fetched subprocess_run args (save_events config args)) = Ok torrents ->
  execs (snd (main float_of_str subprocess_run config args [])) =
  invocation (client_of args) "info --detailed"
  :: flat_map (pause_rm (client_of args)) (filter (deletable args) torrents).
Proof.
  intros Ht Hm Hp. now rewrite execs_main, Hm, Hp, Ht.
Qed.

(** X9.  Whatever the mode and the console, a [pause] or [rm] command in
    the trace of a run names the id of a parsed record that is not
    allow-listed, is ["Seeding"] and has [ratio >= ratio_limit], and the
    run is not a test run. *)
Theorem removed_ids_qualify (config : option Snapshot) (args : Args) (i : string) :
  In (invocation (client_of args) ("pause " ++ i))
     (execs (snd (main float_of_str subprocess_run config args [])))
  \/ In (invocation (client_of args) ("rm " ++ i))
        (execs (snd (main float_of_str subprocess_run config args []))) ->
  test args = false
  /\ exists torrents t,
      parse_torrent_info float_of_str
        (fetched subprocess_run args (save_events config args)) = Ok torrents
      /\ In t torrents /\ torrent_id t = i /\ deletable args t = true.
Proof.
  rewrite execs_main. set (d := client_of args).
  assert (Hfetch : forall c, mutating d c ->
            c <> invocation d "info --detailed").
  { intros c Hc ->. now apply (fetch_not_mutating d). }
  assert (Hin : forall c, (c = invocation d ("pause " ++ i)
                           \/ c = invocation d ("rm " ++ i)) ->
            forall t, In c (pause_rm d t) -> torrent_id t = i).
  { intros c Hc t [<-|[<-|[]]]; destruct Hc as [Hc|Hc];
      apply invocation_inj in Hc;
      (discriminate || (now apply append_cancel in Hc)). }
  intros H.
  assert (H' : exists c, (c = invocation d ("pause " ++ i)
                          \/ c = invocation d ("rm " ++ i))
                 /\ In c (if missing args then []
                          else invocation d "info --detailed"
                               :: match parse_torrent_info float_of_str
                                          (fetched subprocess_run args
                                                   (save_events config args)) with
                                  | Ok torrents =>
                                      if test args then []
                                      else flat_map (pause_rm d)
                                             (filter (deletable args) torrents)
                                  | Raise _ => []
                                  end)).
  { destruct H as [H|H]; eexists; split; try exact H; auto. }
  clear H. destruct H' as [c [Hc H]].
  destruct (missing args); [now elim H|].
  destruct H as [H|H].
  { exfalso. apply (Hfetch c); [|now symmetry].
    exists i. exact Hc. }
  destruct (parse_torrent_info float_of_str _) as [torrents|e]; [|now elim H].
  destruct (test args); [now elim H|]. split; [reflexivity|].
  apply in_flat_map in H. destruct H as [t [Ht Hct]].
  apply filter_In in Ht. destruct Ht as [Ht Hdel].
  exists torrents, t. repeat split; try assumption.
  now apply (Hin c Hc).
Qed.

Lemma deletable_nan_limit (args : Args) (torrents : list Torrent) :
  ratio_limit args = S754_nan -> filter (deletable args) torrents = [].
Proof.
  intros H. induction torrents as [|t rest IH]; simpl; [reflexivity|].
  unfold deletable at 1. now rewrite H, float_ge_nan, andb_false_r.
Qed.

(** X10.  With a ratio limit that is not a number ([--ratio_limit nan]) no
    comparison [ratio >= ratio_limit] holds: the run removes nothing, its
    only console command is the fetch. *)
Theorem nan_limit_deletes_nothing (config : option Snapshot) (args : Args) :
  ratio_limit args = S754_nan ->
  execs (snd (main float_of_str subprocess_run config args [])) =
  if missing args then [] else [invocation (client_of args) "info --detailed"].
Proof.
  intros H. rewrite execs_main. destruct (missing args); [reflexivity|].
  destruct (parse_torrent_info float_of_str _) as [torrents|e]; [|reflexivity].
  rewrite (deletable_nan_limit args torrents H). now destruct (test args).
Qed.

(** X11.  When the table is printed, its rows are consistent: the row
    [Total skipped] is the sum of the three rows below it, and the row
    [Total torrents], the number of parsed records, is the deleted row plus
    [Total skipped]. *)
Theorem table_rows_add_up (config : option Snapshot) (args : Args)
        (torrents : list Torrent) :
  missing args = false ->
  parse_torrent_info float_of_str
    (fetched subprocess_run args (save_events config args)) = Ok torrents ->
  prints_table args = true ->
  exists d r u o,
    stats (snd (main float_of_str subprocess_run config args [])) =
    [("Total torrents", List.length torrents);
     (if test args then "Would be deleted" else "Deleted", d);
     ("Total skipped", u + r + o);
     ("Due to ratio", r);
     ("Allowed tracker (under limit)", u);
     ("Allowed tracker (over limit)", o)]
    /\ List.length torrents = d + (u + r + o).
Proof.
  intros Hm Hp Ht. rewrite stats_main, Hm, Hp, Ht.
  pose proof (total_tally_all (ratio_limit args) (allowed_trackers args)
                              torrents counters0) as Hsum.
  unfold total in Hsum. simpl in Hsum.
  do 4 eexists. split; [reflexivity|]. lia.
Qed.

(** X12.  A run that is not a test run and has verbosity [0] prints no row
    of the table. *)
Theorem quiet_run_prints_no_table (config : option Snapshot) (args : Args)
        (label : string) (value : nat) :
  test args = false -> verbose args = 0 ->
  ~ In (PrintStat label value)
       (snd (main float_of_str subprocess_run config args [])).
Proof.
  intros Ht Hv. rewrite stats_In, stats_main. unfold prints_table.
  rewrite Ht, Hv. destruct (missing args); [now intros []|].
  now destruct (parse_torrent_info float_of_str _).
Qed.

(** X13.  Outside test mode, when the dump parses, the run makes one
    console call for the fetch and two for every record counted as
    deleted, and the row [Deleted], when printed, shows that count: it
    counts the attempts, whatever the console answered. *)
Theorem deleted_row_counts_attempts (config : option Snapshot) (args : Args)
        (torrents : list Torrent) :
  test args = false ->
  missing args = false ->
  parse_torrent_info float_of_str
    (fetched subprocess_run args (save_events config args)) = Ok torrents ->
  let d := count_disposition Delete (ratio_limit args) (allowed_trackers args)
                             torrents in
  List.length (execs (snd (main float_of_str subprocess_run config args []))) =
    1 + 2 * d
  /\ (prints_table args = true ->
      In (PrintStat "Deleted" d)
         (snd (main float_of_str subprocess_run config args []))).
Proof.
  intros Ht Hm Hp d. split.
  - rewrite execs_main, Hm, Hp, Ht. simpl List.length.
    rewrite length_flat_map_pause_rm. unfold d. now rewrite count_deletable.
  - intros Hpr. rewrite stats_In, stats_main, Hm, Hp, Hpr, Ht.
    destruct (tally_all_counts (ratio_limit args) (allowed_trackers args)
                               torrents counters0) as [H1 _].
    simpl in H1. simpl. rewrite H1. right. now left.
Qed.

(** X14.  A test run reports the numbers the real run reports: for the
    same configuration and console, the six values of the table of the run
    with [--test] are those of the table of the run without it. *)
Theorem dry_run_predicts_run (config : option Snapshot) (args : Args) :
  test args = false ->
  prints_table args = true ->
  map snd (stats (snd (main float_of_str subprocess_run config
                            (with_test args true) []))) =
  map snd (stats (snd (main float_of_str subprocess_run config args []))).
Proof.
  intros Ht Hpr. rewrite !stats_main, Hpr.
  change (missing (with_test args true)) with (missing args).
  change (save_events config (with_test args true)) with (save_events config args).
  change (fetched subprocess_run (with_test args true) (save_events config args))
    with (fetched subprocess_run args (save_events config args)).
  change (prints_table (with_test args true)) with true.
  change (ratio_limit (with_test args true)) with (ratio_limit args).
  change (allowed_trackers (with_test args true)) with (allowed_trackers args).
  change (test (with_test args true)) with true.
  rewrite Ht. destruct (missing args); [reflexivity|].
  now destruct (parse_torrent_info float_of_str _).
Qed.

End MainExtras.

Lemma length_spaces (n : nat) : String.length (spaces n) = n.
Proof.
  induction n as [|n IH]; simpl; [reflexivity | now rewrite IH].
Qed.

(** X15.  A table row is the name, padding, and the value in decimal:
    nothing is cut, and the row has [max 30 |name| + max 5 |digits|]
    characters, so at least the 35 of the rule printed under it. *)
Theorem print_stat_width (name : string) (value : nat) :
  (exists pad, print_stat name value = name ++ spaces pad ++ str_of_nat value)
  /\ String.length (print_stat name value) =
     Nat.max 30 (String.length name)
     + Nat.max 5 (String.length (str_of_nat value))
  /\ 35 <= String.length (print_stat name value).
Proof.
  assert (Hsp : forall a b, spaces a ++ spaces b = spaces (a + b)).
  { intros a b. induction a as [|a IH]; simpl; [reflexivity | now rewrite IH]. }
  assert (Hassoc : forall a b c : string, (a ++ b) ++ c = a ++ b ++ c).
  { intros a b c. induction a as [|x a IH]; simpl; [reflexivity | now rewrite IH]. }
  assert (Hlen : String.length (print_stat name value) =
                 Nat.max 30 (String.length name)
                 + Nat.max 5 (String.length (str_of_nat value))).
  { unfold print_stat, ljust, rjust.
    rewrite !StrFacts.length_append, !length_spaces. lia. }
  repeat split.
  - unfold print_stat, ljust, rjust. eexists.
    rewrite Hassoc. f_equal. rewrite <- Hassoc, Hsp. reflexivity.
  - exact Hlen.
  - rewrite Hlen. lia.
Qed.

(** ** The further properties on concrete inputs *)

Lemma parser_raises_only_ValueError_witness :
  parse_torrent_info PyFloat.py_float Cases.dump_bad = Raise ValueError
  /\ ValueError = ValueError.
Proof.
  split; [reflexivity|].
  exact (parser_raises_only_ValueError PyFloat.py_float Cases.dump_bad
           ValueError eq_refl).
Defined.

Lemma no_ratio_line_defaults_to_zero_witness :
  (forall section line,
      In section (Str.split Str.nlnl Cases.block_plain) ->
      In line (Str.split Str.nl section) ->
      Str.contains "Share Ratio:" line = false)
  /\ parse_torrent_info PyFloat.py_float Cases.block_plain =
     Ok [Cases.torrent_plain]
  /\ exists torrents,
      parse_torrent_info PyFloat.py_float Cases.block_plain = Ok torrents
      /\ Forall (fun t => ratio t = S754_zero false) torrents.
Proof.
  assert (H : forall section line,
             In section (Str.split Str.nlnl Cases.block_plain) ->
             In line (Str.split Str.nl section) ->
             Str.contains "Share Ratio:" line = false).
  { intros section line Hs Hl. cbv in Hs. destruct Hs as [<-|[]].
    cbv in Hl. repeat (destruct Hl as [<-|Hl]; [reflexivity|]). elim Hl. }
  split; [exact H|]. split; [reflexivity|].
  exact (no_ratio_line_defaults_to_zero PyFloat.py_float Cases.block_plain H).
Defined.

Lemma unrecognized_line_is_ignored_witness :
  unrecognized "Size: 1.0 GiB"
  /\ parse_lines PyFloat.py_float locals0
       (["Name: X"] ++ "Size: 1.0 GiB" :: ["ID: 1"]) =
     parse_lines PyFloat.py_float locals0 (["Name: X"] ++ ["ID: 1"]).
Proof.
  assert (H : unrecognized "Size: 1.0 GiB") by (repeat split).
  split; [exact H|].
  exact (unrecognized_line_is_ignored PyFloat.py_float ["Name: X"] ["ID: 1"]
           "Size: 1.0 GiB" locals0 H).
Defined.

Lemma parsed_records_well_formed_witness :
  parse_torrent_info PyFloat.py_float Sample.dump3 =
    Ok [Sample.torrentA; Sample.torrentB]
  /\ Forall well_formed [Sample.torrentA; Sample.torrentB].
Proof.
  split; [reflexivity|].
  exact (parsed_records_well_formed PyFloat.py_float Sample.dump3
           [Sample.torrentA; Sample.torrentB] eq_refl).
Defined.

Lemma last_label_line_wins_witness :
  parse_lines PyFloat.py_float locals0 ["Name: old"; "ID: 1"] =
    Ok (mkLocals "old" "1" "" (S754_zero false) "")
  /\ parse_lines PyFloat.py_float locals0
       (["Name: old"; "ID: 1"] ++ ["Name:" ++ " new"]) =
     Ok (mkLocals "new" "1" "" (S754_zero false) "").
Proof.
  split; [reflexivity|].
  exact (proj1 (last_label_line_wins PyFloat.py_float ["Name: old"; "ID: 1"]
                  " new" locals0 (mkLocals "old" "1" "" (S754_zero false) "")
                  eq_refl) eq_refl).
Defined.



Lemma run_issues_fetch_then_pairs_witness :
  test Sample.args_run = false
  /\ missing Sample.args_run = false
  /\ execs (snd (main PyFloat.py_float (Sample.console Sample.dump3 0) None
                      Sample.args_run [])) =
     [invocation (client_of Sample.args_run) "info --detailed";
      invocation (client_of Sample.args_run) "pause 1";
      invocation (client_of Sample.args_run) "rm 1"].
Proof.
  repeat (split; [reflexivity|]).
  exact (run_issues_fetch_then_pairs PyFloat.py_float
           (Sample.console Sample.dump3 0) None Sample.args_run
           [Sample.torrentA; Sample.torrentB] eq_refl eq_refl eq_refl).
Defined.

Lemma removed_ids_qualify_witness :
  In (invocation (client_of Sample.args_run) ("rm " ++ "1"))
     (execs (snd (main PyFloat.py_float (Sample.console Sample.dump3 0) None
                       Sample.args_run [])))
  /\ exists torrents t,
      parse_torrent_info PyFloat.py_float
        (fetched (Sample.console Sample.dump3 0) Sample.args_run
                 (save_events None Sample.args_run)) = Ok torrents
      /\ In t torrents /\ torrent_id t = "1"
      /\ deletable Sample.args_run t = true.
Proof.
  assert (H : In (invocation (client_of Sample.args_run) ("rm " ++ "1"))
                 (execs (snd (main PyFloat.py_float
                                   (Sample.console Sample.dump3 0) None
                                   Sample.args_run []))))
    by (vm_compute; right; right; left; reflexivity).
  split; [exact H|].
  exact (proj2 (removed_ids_qualify PyFloat.py_float
                  (Sample.console Sample.dump3 0) None Sample.args_run "1"
                  (or_intror H))).
Defined.

Lemma nan_limit_deletes_nothing_witness :
  ratio_limit Cases.args_nan = S754_nan
  /\ parse_torrent_info PyFloat.py_float Sample.blockA = Ok [Sample.torrentA]
  /\ execs (snd (main PyFloat.py_float (Sample.console Sample.blockA 0) None
                      Cases.args_nan [])) =
     [invocation (client_of Cases.args_nan) "info --detailed"].
Proof.
  repeat (split; [reflexivity|]).
  exact (nan_limit_deletes_nothing PyFloat.py_float
           (Sample.console Sample.blockA 0) None Cases.args_nan eq_refl).
Defined.

Lemma table_rows_add_up_witness :
  missing Cases.args_loud = false
  /\ prints_table Cases.args_loud = true
  /\ exists d r u o,
      stats (snd (main PyFloat.py_float (Sample.console Sample.dump3 0) None
                       Cases.args_loud [])) =
      [("Total torrents", 2); ("Deleted", d); ("Total skipped", u + r + o);
       ("Due to ratio", r); ("Allowed tracker (under limit)", u);
       ("Allowed tracker (over limit)", o)]
      /\ 2 = d + (u + r + o).
Proof.
  repeat (split; [reflexivity|]).
  exact (table_rows_add_up PyFloat.py_float (Sample.console Sample.dump3 0)
           None Cases.args_loud [Sample.torrentA; Sample.torrentB]
           eq_refl eq_refl eq_refl).
Defined.

Lemma quiet_run_prints_no_table_witness :
  test Sample.args_run = false
  /\ verbose Sample.args_run = 0
  /\ ~ In (PrintStat "Deleted" 1)
          (snd (main PyFloat.py_float (Sample.console Sample.dump3 0) None
                     Sample.args_run [])).
Proof.
  repeat (split; [reflexivity|]).
  exact (quiet_run_prints_no_table PyFloat.py_float
           (Sample.console Sample.dump3 0) None Sample.args_run "Deleted" 1
           eq_refl eq_refl).
Defined.

Lemma deleted_row_counts_attempts_witness :
  test Cases.args_loud = false
  /\ missing Cases.args_loud = false
  /\ returncode (Sample.console Sample.dump3 1 []
                   (invocation (client_of Cases.args_loud) "pause 1")) = 1%Z
  /\ List.length (execs (snd (main PyFloat.py_float
                                   (Sample.console Sample.dump3 1) None
                                   Cases.args_loud []))) = 3
  /\ In (PrintStat "Deleted" 1)
        (snd (main PyFloat.py_float (Sample.console Sample.dump3 1) None
                   Cases.args_loud [])).
Proof.
  do 3 (split; [reflexivity|]).
  destruct (deleted_row_counts_attempts PyFloat.py_float
              (Sample.console Sample.dump3 1) None Cases.args_loud
              [Sample.torrentA; Sample.torrentB] eq_refl eq_refl eq_refl)
    as [H1 H2].
  split; [exact H1 | exact (H2 eq_refl)].
Defined.

Lemma dry_run_predicts_run_witness :
  test Cases.args_loud = false
  /\ prints_table Cases.args_loud = true
  /\ map snd (stats (snd (main PyFloat.py_float (Sample.console Sample.dump3 0)
                               None (with_test Cases.args_loud true) []))) =
     [2; 1; 1; 1; 0; 0]
  /\ map snd (stats (snd (main PyFloat.py_float (Sample.console Sample.dump3 0)
                               None (with_test Cases.args_loud true) []))) =
     map snd (stats (snd (main PyFloat.py_float (Sample.console Sample.dump3 0)
                               None Cases.args_loud []))).
Proof.
  repeat (split; [reflexivity|]).
  exact (dry_run_predicts_run PyFloat.py_float (Sample.console Sample.dump3 0)
           None Cases.args_loud eq_refl eq_refl).
Defined.

(** The rows of a table of zeros, as printed. *)
Example print_stat_sample :
  print_stat "Total torrents" 0 = "Total torrents                    0"
  /\ String.length (print_stat "Allowed tracker (under limit)" 12) = 35.
Proof.
  split; reflexivity.
Qed.
